(** * SocialGraphNftFhe: batch lifecycle, encrypted accumulation and the
      decryption request/callback protocol

    A shallow embedding of [contracts/Social_Graph_NFT_Fhe.sol].  Storage is
    a record of the contract's state variables, Solidity mappings are finite
    maps read with the type's zero value as default, a transaction either
    reverts with an error (leaving storage as it was) or returns the new
    storage together with the events it emitted. *)

From Stdlib Require Import ZArith List Bool Lia.
From Stdlib.Strings Require Import Byte.
From stdpp Require Import base option gmap list.
Import ListNotations.

Local Open Scope Z_scope.

(** ** Machine values *)

Abbreviation address := Z (only parsing).
Abbreviation uint256 := Z (only parsing).
Abbreviation bytes32 := Z (only parsing).
Abbreviation bytes := (list byte) (only parsing).

Definition MAX_UINT256 : Z := 2 ^ 256 - 1.

(** ** Errors and events *)

(** The custom errors of the contract, and the two ways the EVM itself
    aborts a call here: the arithmetic panic of checked [+] and [++], and a
    failed [abi.decode]. *)
Inductive Error :=
| NotOwner | NotProvider | Paused | CooldownActive | BatchClosed
| InvalidArgument | ReplayAttempt | StateMismatch | InvalidProof
| AlreadyInitialized | NotInitialized
| PanicOverflow | AbiDecodeFailure.

(** The events the contract declares.  Logs that the library writes while
    one of its functions runs inside a call are not part of the model. *)
Module Event.
Inductive t :=
| ProviderAdded (provider : address)
| ProviderRemoved (provider : address)
| CooldownSecondsUpdated (oldCooldown newCooldown : uint256)
| Paused (account : address)
| Unpaused (account : address)
| BatchOpened (batchId : uint256)
| BatchClosed (batchId : uint256)
| ConnectionSubmitted (user : address) (batchId : uint256)
                      (encryptedConnectionsCount : bytes32)
| DecryptionRequested (requestId batchId : uint256)
| DecryptionCompleted (requestId batchId totalConnections : uint256).
End Event.

Inductive Result (A : Type) :=
| Ok (a : A)
| Revert (e : Error).
Arguments Ok {A} a.
Arguments Revert {A} e.

Definition bind {A B} (c : Result A) (k : A -> Result B) : Result B :=
  match c with
  | Ok a => k a
  | Revert e => Revert e
  end.

Notation "'do' x <- c ; k" := (bind c (fun x => k))
  (at level 10, x name, c at level 100, k at level 200).
Notation "'check' c ; k" := (bind c (fun _ => k))
  (at level 10, c at level 100, k at level 200).

(** [if (cond) revert E();] *)
Definition revert_if (cond : bool) (e : Error) : Result unit :=
  if cond then Revert e else Ok tt.

(** Checked addition of Solidity 0.8 on [uint256]. *)
Definition checked_add (a b : uint256) : Result uint256 :=
  if a + b <=? MAX_UINT256 then Ok (a + b) else Revert PanicOverflow.

(** [abi.decode(data, (uint32))]: the first 32-byte word, big endian; the
    call reverts when the data is shorter than one word or the word does not
    fit 32 bits. *)
Definition be_value (bs : bytes) : Z :=
  fold_left (fun acc b => acc * 256 + Z.of_N (Byte.to_N b)) bs 0.

Definition abi_decode_uint32 (data : bytes) : Result Z :=
  if (length data <? 32)%nat then Revert AbiDecodeFailure
  else
    let v := be_value (take 32 data) in
    if 2 ^ 32 <=? v then Revert AbiDecodeFailure else Ok v.

(** ** The FHE library and the chain primitives the contract calls

    [@fhevm/solidity/lib/FHE.sol] is imported by the contract and is not part
    of this repository; its functions are the fields of this interface.
    [keccak256_encode cts a] stands for [keccak256(abi.encode(cts, a))] and
    [address_this] for [address(this)].  The request identifier returned by
    [FHE.requestDecryption] is chosen by the library: it is an input of the
    transaction (see [requestTotalConnectionsDecryption]).  The library
    numbers the requests of a contract and returns no identifier twice;
    the properties of a request state this as a premise on the execution
    ([requests_id]). *)
Class FHE := {
  euint32 : Type;
  euint32_zero_value : euint32;
  FHE_asEuint32 : Z -> euint32;
  FHE_add : euint32 -> euint32 -> euint32;
  FHE_isInitialized : euint32 -> bool;
  FHE_toBytes32 : euint32 -> bytes32;
  FHE_checkSignatures : uint256 -> bytes -> bytes -> bool;
  keccak256_encode : list bytes32 -> address -> bytes32;
  address_this : address
}.

Record DecryptionContext := {
  batchId : uint256;
  stateHash : bytes32;
  processed : bool
}.

(** What an unwritten slot of [decryptionContexts] reads. *)
Definition DecryptionContext_zero_value : DecryptionContext :=
  {| batchId := 0; stateHash := 0; processed := false |}.

(** [msg.sender] and [block.timestamp] of a call. *)
Record Env := {
  msg_sender : address;
  block_timestamp : uint256
}.

Section Contract.
Context `{FHE}.

(** ** Storage *)

Record State := {
  owner : address;
  isProvider : gmap Z bool;
  paused : bool;
  cooldownSeconds : uint256;
  lastSubmissionTime : gmap Z Z;
  lastDecryptionRequestTime : gmap Z Z;
  currentBatchId : uint256;
  batchOpen : bool;
  encryptedTotalConnections : gmap Z euint32;
  encryptedUserConnections : gmap (Z * Z) euint32;
  decryptionContexts : gmap Z DecryptionContext
}.

(** Reads of a mapping slot. *)
Definition isProvider_at (s : State) (a : address) : bool :=
  default false (isProvider s !! a).
Definition lastSubmissionTime_at (s : State) (a : address) : uint256 :=
  default 0 (lastSubmissionTime s !! a).
Definition lastDecryptionRequestTime_at (s : State) (a : address) : uint256 :=
  default 0 (lastDecryptionRequestTime s !! a).
Definition encryptedTotalConnections_at (s : State) (b : uint256) : euint32 :=
  default euint32_zero_value (encryptedTotalConnections s !! b).
Definition encryptedUserConnections_at (s : State) (b : uint256) (u : address)
  : euint32 :=
  default euint32_zero_value (encryptedUserConnections s !! (b, u)).
Definition decryptionContexts_at (s : State) (r : uint256) : DecryptionContext :=
  default DecryptionContext_zero_value (decryptionContexts s !! r).

(** Writes of one state variable. *)
Definition set_isProvider (v : gmap Z bool) (s : State) : State :=
  {| owner := owner s; isProvider := v; paused := paused s;
     cooldownSeconds := cooldownSeconds s;
     lastSubmissionTime := lastSubmissionTime s;
     lastDecryptionRequestTime := lastDecryptionRequestTime s;
     currentBatchId := currentBatchId s; batchOpen := batchOpen s;
     encryptedTotalConnections := encryptedTotalConnections s;
     encryptedUserConnections := encryptedUserConnections s;
     decryptionContexts := decryptionContexts s |}.
Definition set_paused (v : bool) (s : State) : State :=
  {| owner := owner s; isProvider := isProvider s; paused := v;
     cooldownSeconds := cooldownSeconds s;
     lastSubmissionTime := lastSubmissionTime s;
     lastDecryptionRequestTime := lastDecryptionRequestTime s;
     currentBatchId := currentBatchId s; batchOpen := batchOpen s;
     encryptedTotalConnections := encryptedTotalConnections s;
     encryptedUserConnections := encryptedUserConnections s;
     decryptionContexts := decryptionContexts s |}.
Definition set_cooldownSeconds (v : uint256) (s : State) : State :=
  {| owner := owner s; isProvider := isProvider s; paused := paused s;
     cooldownSeconds := v;
     lastSubmissionTime := lastSubmissionTime s;
     lastDecryptionRequestTime := lastDecryptionRequestTime s;
     currentBatchId := currentBatchId s; batchOpen := batchOpen s;
     encryptedTotalConnections := encryptedTotalConnections s;
     encryptedUserConnections := encryptedUserConnections s;
     decryptionContexts := decryptionContexts s |}.
Definition set_lastSubmissionTime (v : gmap Z Z) (s : State) : State :=
  {| owner := owner s; isProvider := isProvider s; paused := paused s;
     cooldownSeconds := cooldownSeconds s;
     lastSubmissionTime := v;
     lastDecryptionRequestTime := lastDecryptionRequestTime s;
     currentBatchId := currentBatchId s; batchOpen := batchOpen s;
     encryptedTotalConnections := encryptedTotalConnections s;
     encryptedUserConnections := encryptedUserConnections s;
     decryptionContexts := decryptionContexts s |}.
Definition set_lastDecryptionRequestTime (v : gmap Z Z) (s : State) : State :=
  {| owner := owner s; isProvider := isProvider s; paused := paused s;
     cooldownSeconds := cooldownSeconds s;
     lastSubmissionTime := lastSubmissionTime s;
     lastDecryptionRequestTime := v;
     currentBatchId := currentBatchId s; batchOpen := batchOpen s;
     encryptedTotalConnections := encryptedTotalConnections s;
     encryptedUserConnections := encryptedUserConnections s;
     decryptionContexts := decryptionContexts s |}.
Definition set_currentBatchId (v : uint256) (s : State) : State :=
  {| owner := owner s; isProvider := isProvider s; paused := paused s;
     cooldownSeconds := cooldownSeconds s;
     lastSubmissionTime := lastSubmissionTime s;
     lastDecryptionRequestTime := lastDecryptionRequestTime s;
     currentBatchId := v; batchOpen := batchOpen s;
     encryptedTotalConnections := encryptedTotalConnections s;
     encryptedUserConnections := encryptedUserConnections s;
     decryptionContexts := decryptionContexts s |}.
Definition set_batchOpen (v : bool) (s : State) : State :=
  {| owner := owner s; isProvider := isProvider s; paused := paused s;
     cooldownSeconds := cooldownSeconds s;
     lastSubmissionTime := lastSubmissionTime s;
     lastDecryptionRequestTime := lastDecryptionRequestTime s;
     currentBatchId := currentBatchId s; batchOpen := v;
     encryptedTotalConnections := encryptedTotalConnections s;
     encryptedUserConnections := encryptedUserConnections s;
     decryptionContexts := decryptionContexts s |}.
Definition set_encryptedTotalConnections (v : gmap Z euint32) (s : State)
  : State :=
  {| owner := owner s; isProvider := isProvider s; paused := paused s;
     cooldownSeconds := cooldownSeconds s;
     lastSubmissionTime := lastSubmissionTime s;
     lastDecryptionRequestTime := lastDecryptionRequestTime s;
     currentBatchId := currentBatchId s; batchOpen := batchOpen s;
     encryptedTotalConnections := v;
     encryptedUserConnections := encryptedUserConnections s;
     decryptionContexts := decryptionContexts s |}.
Definition set_encryptedUserConnections (v : gmap (Z * Z) euint32) (s : State)
  : State :=
  {| owner := owner s; isProvider := isProvider s; paused := paused s;
     cooldownSeconds := cooldownSeconds s;
     lastSubmissionTime := lastSubmissionTime s;
     lastDecryptionRequestTime := lastDecryptionRequestTime s;
     currentBatchId := currentBatchId s; batchOpen := batchOpen s;
     encryptedTotalConnections := encryptedTotalConnections s;
     encryptedUserConnections := v;
     decryptionContexts := decryptionContexts s |}.
Definition set_decryptionContexts (v : gmap Z DecryptionContext) (s : State)
  : State :=
  {| owner := owner s; isProvider := isProvider s; paused := paused s;
     cooldownSeconds := cooldownSeconds s;
     lastSubmissionTime := lastSubmissionTime s;
     lastDecryptionRequestTime := lastDecryptionRequestTime s;
     currentBatchId := currentBatchId s; batchOpen := batchOpen s;
     encryptedTotalConnections := encryptedTotalConnections s;
     encryptedUserConnections := encryptedUserConnections s;
     decryptionContexts := v |}.

(** What a call returns when it does not revert. *)
Definition Outcome : Type := State * list Event.t.

(** ** Modifiers *)

Definition onlyOwner (e : Env) (s : State) : Result unit :=
  revert_if (negb (msg_sender e =? owner s)) NotOwner.

Definition onlyProvider (e : Env) (s : State) : Result unit :=
  revert_if (negb (isProvider_at s (msg_sender e))) NotProvider.

Definition whenNotPaused (s : State) : Result unit :=
  revert_if (paused s) Paused.

Definition submissionCooldown (submitter : address) (e : Env) (s : State)
  : Result unit :=
  do deadline <- checked_add (lastSubmissionTime_at s submitter) (cooldownSeconds s) ;
  revert_if (block_timestamp e <? deadline) CooldownActive.

Definition decryptionCooldown (requester : address) (e : Env) (s : State)
  : Result unit :=
  do deadline <- checked_add (lastDecryptionRequestTime_at s requester)
                                (cooldownSeconds s) ;
  revert_if (block_timestamp e <? deadline) CooldownActive.

(** ** Constructor and functions *)

Definition constructor (e : Env) : State :=
  {| owner := msg_sender e;
     isProvider := <[msg_sender e := true]> ∅;
     paused := false;
     cooldownSeconds := 60;
     lastSubmissionTime := ∅;
     lastDecryptionRequestTime := ∅;
     currentBatchId := 0;
     batchOpen := false;
     encryptedTotalConnections := ∅;
     encryptedUserConnections := ∅;
     decryptionContexts := ∅ |}.

Definition addProvider (e : Env) (provider : address) (s : State)
  : Result Outcome :=
  check onlyOwner e s ;
  check revert_if (provider =? 0) InvalidArgument ;
  let s := set_isProvider (<[provider := true]> (isProvider s)) s in
  Ok (s, [Event.ProviderAdded provider]).

Definition removeProvider (e : Env) (provider : address) (s : State)
  : Result Outcome :=
  check onlyOwner e s ;
  check revert_if (negb (isProvider_at s provider)) InvalidArgument ;
  let s := set_isProvider (delete provider (isProvider s)) s in
  Ok (s, [Event.ProviderRemoved provider]).

Definition setCooldownSeconds (e : Env) (newCooldown : uint256) (s : State)
  : Result Outcome :=
  check onlyOwner e s ;
  check revert_if (newCooldown =? 0) InvalidArgument ;
  let ev := Event.CooldownSecondsUpdated (cooldownSeconds s) newCooldown in
  let s := set_cooldownSeconds newCooldown s in
  Ok (s, [ev]).

Definition pause (e : Env) (s : State) : Result Outcome :=
  check onlyOwner e s ;
  check whenNotPaused s ;
  let s := set_paused true s in
  Ok (s, [Event.Paused (msg_sender e)]).

Definition unpause (e : Env) (s : State) : Result Outcome :=
  check onlyOwner e s ;
  let s := set_paused false s in
  Ok (s, [Event.Unpaused (msg_sender e)]).

Definition openBatch (e : Env) (s : State) : Result Outcome :=
  check onlyProvider e s ;
  check whenNotPaused s ;
  check revert_if (batchOpen s) InvalidArgument ;
  do next <- checked_add (currentBatchId s) 1 ;
  let s := set_currentBatchId next s in
  let s := set_batchOpen true s in
  let s := set_encryptedTotalConnections
             (<[currentBatchId s := FHE_asEuint32 0]>
                (encryptedTotalConnections s)) s in
  Ok (s, [Event.BatchOpened (currentBatchId s)]).

Definition closeBatch (e : Env) (s : State) : Result Outcome :=
  check onlyProvider e s ;
  check whenNotPaused s ;
  check revert_if (negb (batchOpen s)) InvalidArgument ;
  let s := set_batchOpen false s in
  Ok (s, [Event.BatchClosed (currentBatchId s)]).

Definition submitEncryptedConnections
    (e : Env) (user : address) (encryptedCount : euint32) (s : State)
  : Result Outcome :=
  check onlyProvider e s ;
  check whenNotPaused s ;
  check submissionCooldown (msg_sender e) e s ;
  check revert_if (negb (batchOpen s)) BatchClosed ;
  check revert_if (negb (FHE_isInitialized encryptedCount)) NotInitialized ;
  let s := set_lastSubmissionTime
             (<[msg_sender e := block_timestamp e]> (lastSubmissionTime s)) s in
  let s := set_encryptedUserConnections
             (<[(currentBatchId s, user) := encryptedCount]>
                (encryptedUserConnections s)) s in
  let s := set_encryptedTotalConnections
             (<[currentBatchId s :=
                  FHE_add (encryptedTotalConnections_at s (currentBatchId s))
                          encryptedCount]>
                (encryptedTotalConnections s)) s in
  Ok (s, [Event.ConnectionSubmitted user (currentBatchId s)
            (FHE_toBytes32 encryptedCount)]).

Definition _hashCiphertexts (cts : list bytes32) : bytes32 :=
  keccak256_encode cts address_this.

(** [oracleRequestId] is what [FHE.requestDecryption] returns in this
    call. *)
Definition requestTotalConnectionsDecryption
    (e : Env) (oracleRequestId : uint256) (batchId_ : uint256) (s : State)
  : Result Outcome :=
  check onlyProvider e s ;
  check whenNotPaused s ;
  check decryptionCooldown (msg_sender e) e s ;
  check revert_if ((batchId_ =? 0) || (batchId_ >? currentBatchId s)) InvalidArgument ;
  check revert_if (negb (FHE_isInitialized (encryptedTotalConnections_at s batchId_)))
            NotInitialized ;
  let s := set_lastDecryptionRequestTime
             (<[msg_sender e := block_timestamp e]>
                (lastDecryptionRequestTime s)) s in
  let totalConnections := encryptedTotalConnections_at s batchId_ in
  let cts := [FHE_toBytes32 totalConnections] in
  let stateHash_ := _hashCiphertexts cts in
  let requestId := oracleRequestId in
  let s := set_decryptionContexts
             (<[requestId := {| batchId := batchId_; stateHash := stateHash_;
                                processed := false |}]>
                (decryptionContexts s)) s in
  Ok (s, [Event.DecryptionRequested requestId batchId_]).

Definition myCallback
    (e : Env) (requestId : uint256) (cleartexts proof : bytes) (s : State)
  : Result Outcome :=
  check revert_if (processed (decryptionContexts_at s requestId)) ReplayAttempt ;
  let totalConnections :=
    encryptedTotalConnections_at s (batchId (decryptionContexts_at s requestId)) in
  let cts := [FHE_toBytes32 totalConnections] in
  let currentHash := _hashCiphertexts cts in
  check revert_if (negb (currentHash =? stateHash (decryptionContexts_at s requestId)))
            StateMismatch ;
  check revert_if (negb (FHE_checkSignatures requestId cleartexts proof))
            InvalidProof ;
  do totalConnectionsCleartext <- abi_decode_uint32 cleartexts ;
  let c := decryptionContexts_at s requestId in
  let s := set_decryptionContexts
             (<[requestId := {| batchId := batchId c; stateHash := stateHash c;
                                processed := true |}]>
                (decryptionContexts s)) s in
  Ok (s, [Event.DecryptionCompleted requestId
            (batchId (decryptionContexts_at s requestId))
            totalConnectionsCleartext]).

(** ** Transactions and executions *)

Inductive Call :=
| CallAddProvider (provider : address)
| CallRemoveProvider (provider : address)
| CallSetCooldownSeconds (newCooldown : uint256)
| CallPause
| CallUnpause
| CallOpenBatch
| CallCloseBatch
| CallSubmitEncryptedConnections (user : address) (encryptedCount : euint32)
| CallRequestTotalConnectionsDecryption (oracleRequestId batchId_ : uint256)
| CallMyCallback (requestId : uint256) (cleartexts proof : bytes).

Record Tx := { tx_env : Env; tx_call : Call }.

Definition step (tx : Tx) (s : State) : Result Outcome :=
  let e := tx_env tx in
  match tx_call tx with
  | CallAddProvider p => addProvider e p s
  | CallRemoveProvider p => removeProvider e p s
  | CallSetCooldownSeconds n => setCooldownSeconds e n s
  | CallPause => pause e s
  | CallUnpause => unpause e s
  | CallOpenBatch => openBatch e s
  | CallCloseBatch => closeBatch e s
  | CallSubmitEncryptedConnections u c => submitEncryptedConnections e u c s
  | CallRequestTotalConnectionsDecryption r b =>
      requestTotalConnectionsDecryption e r b s
  | CallMyCallback r c p => myCallback e r c p s
  end.

(** Storage after a transaction: a reverted call leaves it as it was. *)
Definition exec (tx : Tx) (s : State) : State :=
  match step tx s with
  | Ok (s', _) => s'
  | Revert _ => s
  end.

(** Events of a transaction: a reverted call emits none. *)
Definition events_of (tx : Tx) (s : State) : list Event.t :=
  match step tx s with
  | Ok (_, evs) => evs
  | Revert _ => []
  end.

Definition succeeds (tx : Tx) (s : State) : bool :=
  match step tx s with
  | Ok _ => true
  | Revert _ => false
  end.

Fixpoint run (txs : list Tx) (s : State) : State :=
  match txs with
  | [] => s
  | tx :: rest => run rest (exec tx s)
  end.

(** States reachable from construction. *)
Definition reachable (s : State) : Prop :=
  exists (deploy : Env) (txs : list Tx), s = run txs (constructor deploy).

End Contract.

(** ** A computable instance of the interface

    A handle is the list of the cleartexts summed into it, so that
    homomorphic addition is concatenation and the exported word of a handle
    grows with every addition; the hash is a sum that tells such words apart
    and is never zero.  The oracle is given by the table [answers] of the
    cleartext it reveals for each request identifier: it accepts a payload
    for a request exactly when the payload decodes to that cleartext and the
    proof is not empty. *)
Definition list_checkSignatures (answers : Z -> option Z)
    (requestId : Z) (cleartexts proof : list byte) : bool :=
  match answers requestId, abi_decode_uint32 cleartexts with
  | Some v, Ok w => (v =? w) && negb (length proof =? 0)%nat
  | _, _ => false
  end.

Definition list_keccak (cts : list Z) (a : Z) : Z :=
  1 + Z.abs a + fold_right (fun c acc => Z.abs c + acc) 0 cts.

Definition ListFHE (answers : Z -> option Z) : FHE :=
  {| euint32 := list Z;
     euint32_zero_value := [];
     FHE_asEuint32 v := [v];
     FHE_add a b := a ++ b;
     FHE_isInitialized a := negb (length a =? 0)%nat;
     FHE_toBytes32 a := Z.of_nat (length a);
     FHE_checkSignatures := list_checkSignatures answers;
     keccak256_encode := list_keccak;
     address_this := 4096 |}.

(** The cleartext of a handle of [ListFHE], in [uint32]. *)
Definition list_decrypt (a : list Z) : Z :=
  fold_right (fun v acc => (v + acc) mod 2 ^ 32) 0 a.

(** The one-word payload [abi.encode(uint32 v)] for [0 <= v < 256]. *)
Definition word_of_byte (b : byte) : list byte := repeat x00 31 ++ [b].

(** ** Observations on executions *)

Section Observations.
Context `{FHE}.

(** [removeProvider(o)] sent by [o]. *)
Definition self_removal (o : address) (tx : Tx) : bool :=
  match tx_call tx with
  | CallRemoveProvider p => (p =? o) && (msg_sender (tx_env tx) =? o)
  | _ => false
  end.

(** The successful [openBatch] ([true]) and [closeBatch] ([false]) calls
    of an execution, in order. *)
Fixpoint lifecycle_trace (txs : list Tx) (s : State) : list bool :=
  match txs with
  | [] => []
  | tx :: rest =>
      match tx_call tx, succeeds tx s with
      | CallOpenBatch, true => true :: lifecycle_trace rest (exec tx s)
      | CallCloseBatch, true => false :: lifecycle_trace rest (exec tx s)
      | _, _ => lifecycle_trace rest (exec tx s)
      end
  end.

(** Starting with the flag at [open], every entry of the trace flips it. *)
Fixpoint alternates (open : bool) (trace : list bool) : bool :=
  match trace with
  | [] => true
  | b :: rest => negb (eqb b open) && alternates b rest
  end.

End Observations.

Section Requests.
Context `{FHE}.

(** A decryption request to which the oracle answers with identifier
    [r]. *)
Definition requests_id (r : uint256) (tx : Tx) : bool :=
  match tx_call tx with
  | CallRequestTotalConnectionsDecryption r' _ => r' =? r
  | _ => false
  end.

(** A callback carrying the request identifier [r]. *)
Definition calls_back (r : uint256) (tx : Tx) : bool :=
  match tx_call tx with
  | CallMyCallback r' _ _ => r' =? r
  | _ => false
  end.

End Requests.

Section Completions.
Context `{FHE}.

(** Number of callbacks with identifier [r] that complete in an
    execution. *)
Fixpoint completions (r : uint256) (txs : list Tx) (s : State) : nat :=
  match txs with
  | [] => 0%nat
  | tx :: rest =>
      ((if calls_back r tx && succeeds tx s then 1 else 0)
       + completions r rest (exec tx s))%nat
  end.

End Completions.

Section Accumulation.
Context `{FHE}.

(** [grows a b]: the handle [b] results from [a] by one or more
    homomorphic additions of initialised handles. *)
Inductive grows : euint32 -> euint32 -> Prop :=
| grows_one a c :
    FHE_isInitialized c = true -> grows a (FHE_add a c)
| grows_more a b c :
    grows a b -> FHE_isInitialized c = true -> grows a (FHE_add b c).

(** What the integrity hash is relied upon for: an aggregate into which
    something was added does not hash like the aggregate it grew from. *)
Definition mutation_detectable : Prop :=
  forall a b,
    grows a b ->
    _hashCiphertexts [FHE_toBytes32 b] <> _hashCiphertexts [FHE_toBytes32 a].

(** A submission that is accepted into batch [B]. *)
Definition submits_to (B : uint256) (tx : Tx) (s : State) : bool :=
  match tx_call tx with
  | CallSubmitEncryptedConnections _ _ =>
      succeeds tx s && (currentBatchId s =? B)
  | _ => false
  end.

Fixpoint submissions_to (B : uint256) (txs : list Tx) (s : State) : nat :=
  match txs with
  | [] => 0%nat
  | tx :: rest =>
      ((if submits_to B tx s then 1 else 0)
       + submissions_to B rest (exec tx s))%nat
  end.

(** The contribution a transaction adds into batch [B]: the user and the
    handle of an accepted submission made while [B] is the current
    batch. *)
Definition contribution_of (B : uint256) (tx : Tx) (s : State)
  : option (address * euint32) :=
  match tx_call tx with
  | CallSubmitEncryptedConnections u c =>
      if succeeds tx s && (currentBatchId s =? B) then Some (u, c) else None
  | _ => None
  end.

(** The contributions an execution adds into batch [B], in order. *)
Fixpoint accepted_into (B : uint256) (txs : list Tx) (s : State)
  : list (address * euint32) :=
  match txs with
  | [] => []
  | tx :: rest =>
      match contribution_of B tx s with
      | Some uc => uc :: accepted_into B rest (exec tx s)
      | None => accepted_into B rest (exec tx s)
      end
  end.

(** The handle of the last contribution for [u], [init] when there is
    none. *)
Definition last_for (u : address) (ucs : list (address * euint32))
    (init : euint32) : euint32 :=
  fold_left (fun acc uc => if fst uc =? u then snd uc else acc) ucs init.

(** Sum of cleartexts. *)
Definition sum_of (vs : list Z) : Z := fold_right Z.add 0 vs.

End Accumulation.

(** ** A worked execution on [ListFHE]

    The deployer, address 1, opens batch 1 and submits an encrypted 5 for
    user 10 and an encrypted 3 for user 11; the oracle answers the
    decryption request with identifier 7 and reveals 8 for it. *)

Definition oracle_answers (r : Z) : option Z :=
  if r =? 7 then Some 8 else None.

Definition Engine : FHE := ListFHE oracle_answers.

Definition at_time (sender : Z) (t : Z) : Env :=
  {| msg_sender := sender; block_timestamp := t |}.

Definition deployed : @State Engine := @constructor Engine (at_time 1 0).

Definition tx_open : @Tx Engine :=
  {| tx_env := at_time 1 10; tx_call := @CallOpenBatch Engine |}.
Definition tx_submit_5 : @Tx Engine :=
  {| tx_env := at_time 1 100;
     tx_call := @CallSubmitEncryptedConnections Engine 10 [5] |}.
Definition tx_submit_3 : @Tx Engine :=
  {| tx_env := at_time 1 200;
     tx_call := @CallSubmitEncryptedConnections Engine 11 [3] |}.
Definition tx_close : @Tx Engine :=
  {| tx_env := at_time 1 210; tx_call := @CallCloseBatch Engine |}.
Definition tx_request : @Tx Engine :=
  {| tx_env := at_time 1 300;
     tx_call := @CallRequestTotalConnectionsDecryption Engine 7 1 |}.
Definition tx_callback : @Tx Engine :=
  {| tx_env := at_time 99 310;
     tx_call := @CallMyCallback Engine 7 (word_of_byte x08) [x01] |}.
Definition tx_pause : @Tx Engine :=
  {| tx_env := at_time 1 305; tx_call := @CallPause Engine |}.
Definition tx_add_2 : @Tx Engine :=
  {| tx_env := at_time 1 306; tx_call := @CallAddProvider Engine 2 |}.
Definition tx_remove_owner : @Tx Engine :=
  {| tx_env := at_time 1 20; tx_call := @CallRemoveProvider Engine 1 |}.

(** Batch 1 open with the 5 submitted. *)
Definition st_submitted_5 : @State Engine :=
  @run Engine [tx_open; tx_submit_5] deployed.

(** Batch 1 closed holding 5 and 3, decryption requested under 7. *)
Definition st_requested : @State Engine :=
  @run Engine [tx_open; tx_submit_5; tx_submit_3; tx_close; tx_request] deployed.

(** The same, the callback completed. *)
Definition st_completed : @State Engine :=
  @run Engine [tx_callback] st_requested.

(** A submission for user 12 that arrives after the request. *)
Definition tx_submit_late : @Tx Engine :=
  {| tx_env := at_time 1 350;
     tx_call := @CallSubmitEncryptedConnections Engine 12 [1] |}.

(** Batch 1 still open with the 5 submitted, decryption requested under 7. *)
Definition st_requested_open : @State Engine :=
  @run Engine [tx_request] st_submitted_5.

(** [st_requested], then paused by the owner. *)
Definition st_paused : @State Engine := @run Engine [tx_pause] st_requested.

(** ** Well-formed storage *)

Section WellFormed.
Context `{FHE}.

(** What construction establishes and every transaction keeps: the batch
    counter is a [uint256], an open batch has a positive identifier, the
    stored aggregates are those of the batches [1..currentBatchId], the
    stored contributions belong to these batches and are initialised
    handles, and the cooldown is not zero. *)
Definition well_formed (s : State) : Prop :=
  0 <= currentBatchId s <= MAX_UINT256 /\
  (batchOpen s = true -> 1 <= currentBatchId s) /\
  (forall b, is_Some (encryptedTotalConnections s !! b)
             <-> 1 <= b <= currentBatchId s) /\
  (forall b u c, encryptedUserConnections s !! (b, u) = Some c ->
                 1 <= b <= currentBatchId s /\ FHE_isInitialized c = true) /\
  cooldownSeconds s <> 0.

(** Number of [openBatch] calls that succeed in an execution. *)
Definition opened (txs : list Tx) (s : State) : nat :=
  length (filter (fun b : bool => b = true) (lifecycle_trace txs s)).

End WellFormed.

(** An outsider, address 2, tries to pause. *)
Definition tx_pause_by_2 : @Tx Engine :=
  {| tx_env := at_time 2 50; tx_call := @CallPause Engine |}.

(** Batch 1 open and empty. *)
Definition st_opened : @State Engine := @run Engine [tx_open] deployed.

(** ** Two larger executions on [ListFHE]

    Two submissions of 2^31 each into batch 1, with an oracle that reveals 0
    for request 7. *)
Definition wrap_answers (r : Z) : option Z :=
  if r =? 7 then Some 0 else None.

Definition WrapEngine : FHE := ListFHE wrap_answers.

Definition wrap_txs : list (@Tx WrapEngine) :=
  [ {| tx_env := at_time 1 10; tx_call := @CallOpenBatch WrapEngine |};
    {| tx_env := at_time 1 100;
       tx_call := @CallSubmitEncryptedConnections WrapEngine 10 [2147483648] |};
    {| tx_env := at_time 1 200;
       tx_call := @CallSubmitEncryptedConnections WrapEngine 11 [2147483648] |};
    {| tx_env := at_time 1 210; tx_call := @CallCloseBatch WrapEngine |};
    {| tx_env := at_time 1 300;
       tx_call := @CallRequestTotalConnectionsDecryption WrapEngine 7 1 |} ].

Definition wrap_callback : @Tx WrapEngine :=
  {| tx_env := at_time 99 310;
     tx_call := @CallMyCallback WrapEngine 7 (word_of_byte x00) [x01] |}.

Definition st_wrapped : @State WrapEngine :=
  @run WrapEngine wrap_txs (@constructor WrapEngine (at_time 1 0)).

(** The owner sets the cooldown to the largest [uint256] after the 5 was
    submitted at time 100. *)
Definition tx_set_cooldown_max : @Tx Engine :=
  {| tx_env := at_time 1 150;
     tx_call := @CallSetCooldownSeconds Engine MAX_UINT256 |}.

Definition st_huge_cooldown : @State Engine :=
  @run Engine [tx_open; tx_submit_5; tx_set_cooldown_max] deployed.

(** * Properties *)

Section Properties.
Context `{FHE}.

Implicit Types (s : State) (e : Env) (tx : Tx).

Ltac unfold_guards :=
  unfold onlyOwner, onlyProvider, whenNotPaused, submissionCooldown,
    decryptionCooldown, revert_if, checked_add, bind in *.

Ltac unfold_calls :=
  unfold addProvider, removeProvider, setCooldownSeconds, pause, unpause,
    openBatch, closeBatch, submitEncryptedConnections,
    requestTotalConnectionsDecryption, myCallback in *.

Ltac case_ifs :=
  repeat match goal with
         | |- context [if ?c then _ else _] => destruct c eqn:?
         end.

(** ** Replay guard of the callback *)

Lemma myCallback_processed e r ct pf s :
  processed (decryptionContexts_at s r) = true ->
  myCallback e r ct pf s = Revert ReplayAttempt.
Proof. intros Hp. unfold myCallback, revert_if, bind. now rewrite Hp. Qed.

(** C2. A callback for a request whose context is already processed reverts
    with [ReplayAttempt], whatever the payload, the proof and the current
    aggregate are (the check comes first); storage, and with it
    [processed], is left as it was and no event is emitted. *)
Theorem replay_rejected_first e r ct pf s :
  processed (decryptionContexts_at s r) = true ->
  let tx := {| tx_env := e; tx_call := CallMyCallback r ct pf |} in
  myCallback e r ct pf s = Revert ReplayAttempt /\
  exec tx s = s /\
  events_of tx s = [] /\
  processed (decryptionContexts_at (exec tx s) r) = true.
Proof.
  intros Hp tx.
  pose proof (myCallback_processed e r ct pf s Hp) as Hr.
  assert (Hs : step tx s = Revert ReplayAttempt) by exact Hr.
  unfold exec, events_of. rewrite Hs. auto.
Qed.

(** ** Pause switch *)

Lemma addProvider_not_Paused e p s : addProvider e p s <> Revert Paused.
Proof.
  unfold_calls; unfold_guards.
  destruct (negb (msg_sender e =? owner s)); [discriminate|].
  destruct (p =? 0); discriminate.
Qed.

Lemma removeProvider_not_Paused e p s : removeProvider e p s <> Revert Paused.
Proof.
  unfold_calls; unfold_guards.
  destruct (negb (msg_sender e =? owner s)); [discriminate|].
  destruct (negb (isProvider_at s p)); discriminate.
Qed.

Lemma setCooldownSeconds_not_Paused e n s :
  setCooldownSeconds e n s <> Revert Paused.
Proof.
  unfold_calls; unfold_guards.
  destruct (negb (msg_sender e =? owner s)); [discriminate|].
  destruct (n =? 0); discriminate.
Qed.

Lemma unpause_not_Paused e s : unpause e s <> Revert Paused.
Proof.
  unfold_calls; unfold_guards.
  destruct (negb (msg_sender e =? owner s)); discriminate.
Qed.

Lemma myCallback_not_Paused e r ct pf s : myCallback e r ct pf s <> Revert Paused.
Proof.
  unfold_calls; unfold_guards. unfold abi_decode_uint32.
  repeat match goal with
         | |- context [if ?c then _ else _] => destruct c
         end; discriminate.
Qed.

(** C4. While the contract is paused, [openBatch], [closeBatch],
    [submitEncryptedConnections] and [requestTotalConnectionsDecryption]
    called by a provider, and [pause] called by the owner, revert with
    [Paused] and leave storage as it was.  [addProvider], [removeProvider],
    [setCooldownSeconds], [unpause] and [myCallback] carry no pause guard:
    they never revert with [Paused]. *)
Theorem paused_gates_provider_calls e s :
  paused s = true ->
  (isProvider_at s (msg_sender e) = true ->
     openBatch e s = Revert Paused /\
     closeBatch e s = Revert Paused /\
     (forall u c, submitEncryptedConnections e u c s = Revert Paused) /\
     (forall r b, requestTotalConnectionsDecryption e r b s = Revert Paused) /\
     exec {| tx_env := e; tx_call := CallOpenBatch |} s = s /\
     exec {| tx_env := e; tx_call := CallCloseBatch |} s = s /\
     (forall u c,
        exec {| tx_env := e;
                tx_call := CallSubmitEncryptedConnections u c |} s = s) /\
     (forall r b,
        exec {| tx_env := e;
                tx_call := CallRequestTotalConnectionsDecryption r b |} s = s)) /\
  (msg_sender e = owner s ->
     pause e s = Revert Paused /\
     exec {| tx_env := e; tx_call := CallPause |} s = s) /\
  (forall p, addProvider e p s <> Revert Paused) /\
  (forall p, removeProvider e p s <> Revert Paused) /\
  (forall n, setCooldownSeconds e n s <> Revert Paused) /\
  unpause e s <> Revert Paused /\
  (forall r ct pf, myCallback e r ct pf s <> Revert Paused).
Proof.
  intros Hp. split; [|split].
  - intros Hprov.
    assert (Ho : openBatch e s = Revert Paused)
      by (unfold_calls; unfold_guards; now rewrite Hprov, Hp).
    assert (Hc : closeBatch e s = Revert Paused)
      by (unfold_calls; unfold_guards; now rewrite Hprov, Hp).
    assert (Hs : forall u c, submitEncryptedConnections e u c s = Revert Paused)
      by (intros; unfold_calls; unfold_guards; now rewrite Hprov, Hp).
    assert (Hr : forall r b,
               requestTotalConnectionsDecryption e r b s = Revert Paused)
      by (intros; unfold_calls; unfold_guards; now rewrite Hprov, Hp).
    repeat split; auto; intros; unfold exec, step; cbn [tx_call tx_env];
      now rewrite ?Ho, ?Hc, ?Hs, ?Hr.
  - intros Hown.
    assert (Hq : pause e s = Revert Paused).
    { unfold_calls; unfold_guards. rewrite Hown, Z.eqb_refl, Hp. reflexivity. }
    split; [exact Hq|]. unfold exec, step; cbn [tx_call tx_env]. now rewrite Hq.
  - repeat split; intros.
    + apply addProvider_not_Paused.
    + apply removeProvider_not_Paused.
    + apply setCooldownSeconds_not_Paused.
    + apply unpause_not_Paused.
    + apply myCallback_not_Paused.
Qed.

(** ** Owner and providers *)

Lemma exec_owner tx s : owner (exec tx s) = owner s.
Proof.
  unfold exec, step. destruct tx as [e c]; cbn [tx_call tx_env].
  destruct c; unfold_calls; unfold_guards; unfold abi_decode_uint32;
    case_ifs; reflexivity.
Qed.

Lemma run_owner txs s : owner (run txs s) = owner s.
Proof.
  revert s. induction txs as [|tx txs IH]; intros s; cbn [run]; [reflexivity|].
  now rewrite IH, exec_owner.
Qed.

Lemma exec_owner_provider tx s :
  self_removal (owner s) tx = false ->
  isProvider_at s (owner s) = true ->
  isProvider_at (exec tx s) (owner s) = true.
Proof.
  unfold exec, step, self_removal. destruct tx as [e c]; cbn [tx_call tx_env].
  intros Hrm Hp.
  destruct c; unfold_calls; unfold_guards; unfold abi_decode_uint32;
    case_ifs; try exact Hp; unfold isProvider_at in *; cbn [isProvider set_isProvider].
  - (* addProvider *)
    destruct (decide (provider = owner s)) as [->|Hne].
    + now rewrite lookup_insert_eq.
    + now rewrite lookup_insert_ne.
  - (* removeProvider by the owner, of another provider *)
    assert (Hne : provider <> owner s).
    { intros ->. rewrite Z.eqb_refl in Hrm. cbn in Hrm.
      destruct (msg_sender e =? owner s); cbn in *; discriminate. }
    now rewrite lookup_delete_ne.
Qed.

(** C5. In every state reached from construction the owner is
    the deployer; and the deployer is a provider in every state reached by
    transactions none of which is [removeProvider(owner)] sent by the
    owner. *)
Theorem owner_fixed_provider_unless_self_removed (deploy : Env) (txs : list Tx) :
  owner (run txs (constructor deploy)) = msg_sender deploy /\
  (forallb (fun tx => negb (self_removal (msg_sender deploy) tx)) txs = true ->
   isProvider_at (run txs (constructor deploy)) (msg_sender deploy) = true).
Proof.
  split; [now rewrite run_owner|].
  assert (Hgen : forall s,
             owner s = msg_sender deploy ->
             isProvider_at s (owner s) = true ->
             forallb (fun tx => negb (self_removal (msg_sender deploy) tx)) txs
               = true ->
             isProvider_at (run txs s) (msg_sender deploy) = true).
  { induction txs as [|tx txs IH]; intros s Ho Hp Hall; cbn [run].
    - now rewrite <- Ho.
    - cbn [forallb] in Hall. apply andb_prop in Hall as [Htx Hall].
      apply negb_true_iff in Htx. rewrite <- Ho in Htx.
      apply IH; [now rewrite exec_owner | | exact Hall].
      rewrite exec_owner. now apply exec_owner_provider. }
  apply Hgen; [reflexivity|].
  unfold isProvider_at, constructor; cbn [isProvider owner].
  now rewrite lookup_insert_eq.
Qed.

(** ** Batch lifecycle *)

Lemma openBatch_Ok_inv e s s' evs :
  openBatch e s = Ok (s', evs) -> batchOpen s = false /\ batchOpen s' = true.
Proof.
  unfold_calls; unfold_guards. case_ifs; try discriminate.
  intros [= <- <-]. auto.
Qed.

Lemma closeBatch_Ok_inv e s s' evs :
  closeBatch e s = Ok (s', evs) -> batchOpen s = true /\ batchOpen s' = false.
Proof.
  unfold_calls; unfold_guards. case_ifs; try discriminate.
  intros [= <- <-]. split; [|reflexivity].
  now destruct (batchOpen s).
Qed.

Lemma exec_batchOpen_other tx s :
  tx_call tx <> CallOpenBatch -> tx_call tx <> CallCloseBatch ->
  batchOpen (exec tx s) = batchOpen s.
Proof.
  unfold exec, step. destruct tx as [e c]; cbn [tx_call tx_env].
  intros Ho Hc.
  destruct c; try congruence; unfold_calls; unfold_guards;
    unfold abi_decode_uint32; case_ifs; reflexivity.
Qed.

Lemma lifecycle_alternates txs s :
  alternates (batchOpen s) (lifecycle_trace txs s) = true.
Proof.
  revert s. induction txs as [|tx txs IH]; intros s; [reflexivity|].
  cbn [lifecycle_trace].
  destruct (tx_call tx) eqn:Hc;
    try (rewrite <- (exec_batchOpen_other tx s) by congruence;
         destruct (succeeds tx s); apply IH).
  - (* openBatch *)
    unfold succeeds, exec, step. rewrite Hc.
    destruct (openBatch (tx_env tx) s) as [[s' evs]|err] eqn:Hop; [|apply IH].
    apply openBatch_Ok_inv in Hop as [Hs Hs'].
    cbn [alternates]. rewrite Hs. cbn.
    pose proof (IH s') as IHs'. now rewrite Hs' in IHs'.
  - (* closeBatch *)
    unfold succeeds, exec, step. rewrite Hc.
    destruct (closeBatch (tx_env tx) s) as [[s' evs]|err] eqn:Hcl; [|apply IH].
    apply closeBatch_Ok_inv in Hcl as [Hs Hs'].
    cbn [alternates]. rewrite Hs. cbn.
    pose proof (IH s') as IHs'. now rewrite Hs' in IHs'.
Qed.

(** C6. In every execution from construction the successful [openBatch]
    and [closeBatch] calls alternate, starting with [openBatch].  For a
    provider, not paused, with [currentBatchId] below the largest
    [uint256]: while a batch is open [openBatch] reverts with
    [InvalidArgument] (storage, and [currentBatchId], unchanged) and
    [closeBatch] succeeds, after which [batchOpen] reads false and every
    other state variable, the aggregates and the contributions with them,
    reads as before; while no batch is open [closeBatch] reverts with
    [InvalidArgument] and [openBatch] succeeds, after which
    [currentBatchId] reads one more, [batchOpen] reads true, the aggregate
    of the new batch reads as an encrypted zero, and the other aggregates
    and state variables read as before. *)
Theorem batch_lifecycle :
  (forall (deploy : Env) (txs : list Tx),
      alternates false (lifecycle_trace txs (constructor deploy)) = true) /\
  (forall e s,
      isProvider_at s (msg_sender e) = true ->
      paused s = false ->
      currentBatchId s < MAX_UINT256 ->
      (batchOpen s = true ->
       openBatch e s = Revert InvalidArgument /\
       exec {| tx_env := e; tx_call := CallOpenBatch |} s = s /\
       exists s',
         closeBatch e s = Ok (s', [Event.BatchClosed (currentBatchId s)]) /\
         batchOpen s' = false /\
         currentBatchId s' = currentBatchId s /\
         encryptedTotalConnections s' = encryptedTotalConnections s /\
         encryptedUserConnections s' = encryptedUserConnections s /\
         decryptionContexts s' = decryptionContexts s /\
         owner s' = owner s /\
         isProvider s' = isProvider s /\
         paused s' = paused s /\
         cooldownSeconds s' = cooldownSeconds s /\
         lastSubmissionTime s' = lastSubmissionTime s /\
         lastDecryptionRequestTime s' = lastDecryptionRequestTime s) /\
      (batchOpen s = false ->
       closeBatch e s = Revert InvalidArgument /\
       exec {| tx_env := e; tx_call := CallCloseBatch |} s = s /\
       exists s',
         openBatch e s = Ok (s', [Event.BatchOpened (currentBatchId s + 1)]) /\
         currentBatchId s' = currentBatchId s + 1 /\
         batchOpen s' = true /\
         encryptedTotalConnections_at s' (currentBatchId s + 1)
           = FHE_asEuint32 0 /\
         (forall b, b <> currentBatchId s + 1 ->
                    encryptedTotalConnections s' !! b
                    = encryptedTotalConnections s !! b) /\
         encryptedUserConnections s' = encryptedUserConnections s /\
         decryptionContexts s' = decryptionContexts s /\
         owner s' = owner s /\
         isProvider s' = isProvider s /\
         paused s' = paused s /\
         cooldownSeconds s' = cooldownSeconds s /\
         lastSubmissionTime s' = lastSubmissionTime s /\
         lastDecryptionRequestTime s' = lastDecryptionRequestTime s)).
Proof.
  split.
  - intros deploy txs. apply (lifecycle_alternates txs (constructor deploy)).
  - intros e s Hprov Hp Hmax. split; intros Hb.
    + assert (Ho : openBatch e s = Revert InvalidArgument)
        by (unfold_calls; unfold_guards; now rewrite Hprov, Hp, Hb).
      split; [exact Ho|]. split.
      { unfold exec, step; cbn [tx_call tx_env]. now rewrite Ho. }
      exists (set_batchOpen false s). split.
      { unfold_calls; unfold_guards. now rewrite Hprov, Hp, Hb. }
      cbn [batchOpen currentBatchId encryptedTotalConnections
             encryptedUserConnections decryptionContexts owner isProvider
             paused cooldownSeconds lastSubmissionTime
             lastDecryptionRequestTime set_batchOpen].
      repeat split.
    + assert (Hc : closeBatch e s = Revert InvalidArgument)
        by (unfold_calls; unfold_guards; now rewrite Hprov, Hp, Hb).
      split; [exact Hc|]. split.
      { unfold exec, step; cbn [tx_call tx_env]. now rewrite Hc. }
      exists (set_encryptedTotalConnections
                (<[currentBatchId s + 1 := FHE_asEuint32 0]>
                   (encryptedTotalConnections s))
                (set_batchOpen true
                   (set_currentBatchId (currentBatchId s + 1) s))).
      split.
      { unfold_calls; unfold_guards. rewrite Hprov, Hp, Hb. cbn [negb].
        destruct (currentBatchId s + 1 <=? MAX_UINT256) eqn:Hle; [reflexivity|].
        apply Z.leb_gt in Hle. lia. }
      unfold encryptedTotalConnections_at.
      cbn [batchOpen currentBatchId encryptedTotalConnections
             encryptedUserConnections decryptionContexts owner isProvider
             paused cooldownSeconds lastSubmissionTime
             lastDecryptionRequestTime set_batchOpen set_currentBatchId
             set_encryptedTotalConnections].
      rewrite lookup_insert_eq.
      split; [reflexivity|]. split; [reflexivity|]. split; [reflexivity|].
      split; [intros b Hne; now rewrite lookup_insert_ne|].
      repeat split.
Qed.

(** ** Decryption request *)


(** ** Cooldown *)

(** C9. For a provider, not paused, whose last action time plus
    [cooldownSeconds] fits [uint256]: a submission (a decryption request)
    before that instant reverts with [CooldownActive] and leaves storage as
    it was; from that instant on it does not revert with [CooldownActive],
    and when it succeeds the caller's submission (decryption-request)
    timestamp is the block time while the timestamps of the other class
    are untouched. *)
Theorem cooldown_throttle e s :
  isProvider_at s (msg_sender e) = true ->
  paused s = false ->
  (lastSubmissionTime_at s (msg_sender e) + cooldownSeconds s <= MAX_UINT256 ->
   forall u c,
     let tx := {| tx_env := e; tx_call := CallSubmitEncryptedConnections u c |} in
     (block_timestamp e
        < lastSubmissionTime_at s (msg_sender e) + cooldownSeconds s ->
      submitEncryptedConnections e u c s = Revert CooldownActive /\
      exec tx s = s) /\
     (lastSubmissionTime_at s (msg_sender e) + cooldownSeconds s
        <= block_timestamp e ->
      submitEncryptedConnections e u c s <> Revert CooldownActive /\
      forall s' evs,
        submitEncryptedConnections e u c s = Ok (s', evs) ->
        lastSubmissionTime_at s' (msg_sender e) = block_timestamp e /\
        lastDecryptionRequestTime s' = lastDecryptionRequestTime s)) /\
  (lastDecryptionRequestTime_at s (msg_sender e) + cooldownSeconds s
     <= MAX_UINT256 ->
   forall r b,
     let tx := {| tx_env := e;
                  tx_call := CallRequestTotalConnectionsDecryption r b |} in
     (block_timestamp e
        < lastDecryptionRequestTime_at s (msg_sender e) + cooldownSeconds s ->
      requestTotalConnectionsDecryption e r b s = Revert CooldownActive /\
      exec tx s = s) /\
     (lastDecryptionRequestTime_at s (msg_sender e) + cooldownSeconds s
        <= block_timestamp e ->
      requestTotalConnectionsDecryption e r b s <> Revert CooldownActive /\
      forall s' evs,
        requestTotalConnectionsDecryption e r b s = Ok (s', evs) ->
        lastDecryptionRequestTime_at s' (msg_sender e) = block_timestamp e /\
        lastSubmissionTime s' = lastSubmissionTime s)).
Proof.
  intros Hprov Hp. split.
  - intros Hfit u c tx. apply Z.leb_le in Hfit. split.
    + intros Hlt. apply Z.ltb_lt in Hlt.
      assert (Hr : submitEncryptedConnections e u c s = Revert CooldownActive)
        by (unfold_calls; unfold_guards; now rewrite Hprov, Hp, Hfit, Hlt).
      split; [exact Hr|].
      unfold exec, step, tx; cbn [tx_call tx_env]. now rewrite Hr.
    + intros Hge. apply Z.ltb_ge in Hge.
      unfold_calls; unfold_guards. rewrite Hprov, Hp, Hfit, Hge. cbn [negb].
      split.
      * case_ifs; discriminate.
      * intros s' evs. case_ifs; try discriminate. intros [= <- <-].
        unfold lastSubmissionTime_at.
        cbn [lastSubmissionTime lastDecryptionRequestTime
               set_lastSubmissionTime set_encryptedUserConnections
               set_encryptedTotalConnections].
        now rewrite lookup_insert_eq.
  - intros Hfit r b tx. apply Z.leb_le in Hfit. split.
    + intros Hlt. apply Z.ltb_lt in Hlt.
      assert (Hr : requestTotalConnectionsDecryption e r b s
                   = Revert CooldownActive)
        by (unfold_calls; unfold_guards; now rewrite Hprov, Hp, Hfit, Hlt).
      split; [exact Hr|].
      unfold exec, step, tx; cbn [tx_call tx_env]. now rewrite Hr.
    + intros Hge. apply Z.ltb_ge in Hge.
      unfold_calls; unfold_guards. rewrite Hprov, Hp, Hfit, Hge. cbn [negb].
      split.
      * case_ifs; discriminate.
      * intros s' evs. case_ifs; try discriminate. intros [= <- <-].
        unfold lastDecryptionRequestTime_at.
        cbn [lastSubmissionTime lastDecryptionRequestTime
               set_lastDecryptionRequestTime set_decryptionContexts].
        now rewrite lookup_insert_eq.
Qed.

(** ** Callback for an identifier that was never issued *)

Lemma myCallback_unknown e r ct pf s :
  (forall cts, keccak256_encode cts address_this <> 0) ->
  decryptionContexts s !! r = None ->
  myCallback e r ct pf s = Revert StateMismatch.
Proof.
  intros Hh Hnone. unfold myCallback, decryptionContexts_at. rewrite Hnone.
  cbn [default DecryptionContext_zero_value processed batchId stateHash].
  unfold revert_if, bind, _hashCiphertexts.
  destruct (_ =? 0) eqn:Heq; [|reflexivity].
  apply Z.eqb_eq in Heq. now apply Hh in Heq.
Qed.

Lemma exec_context_absent tx r s :
  (forall cts, keccak256_encode cts address_this <> 0) ->
  requests_id r tx = false ->
  decryptionContexts s !! r = None ->
  decryptionContexts (exec tx s) !! r = None.
Proof.
  intros Hh Hreq Hnone. unfold exec, step, requests_id in *.
  destruct tx as [e c]; cbn [tx_call tx_env] in *.
  destruct c;
    try (unfold_calls; unfold_guards; case_ifs; exact Hnone).
  - (* a request answered with another identifier *)
    apply Z.eqb_neq in Hreq.
    unfold_calls; unfold_guards; case_ifs; try exact Hnone.
    cbn [decryptionContexts set_decryptionContexts]. now rewrite lookup_insert_ne.
  - (* a callback *)
    destruct (decide (requestId = r)) as [->|Hne].
    + now rewrite (myCallback_unknown e r cleartexts proof s Hh Hnone).
    + unfold_calls; unfold_guards; unfold abi_decode_uint32;
        case_ifs; try exact Hnone.
      all: cbn [decryptionContexts set_decryptionContexts];
        now rewrite lookup_insert_ne.
Qed.

Lemma run_context_absent txs r s :
  (forall cts, keccak256_encode cts address_this <> 0) ->
  forallb (fun tx => negb (requests_id r tx)) txs = true ->
  decryptionContexts s !! r = None ->
  decryptionContexts (run txs s) !! r = None.
Proof.
  intros Hh. revert s. induction txs as [|tx txs IH]; intros s Hall Hnone;
    cbn [run]; [exact Hnone|].
  cbn [forallb] in Hall. apply andb_prop in Hall as [Htx Hall].
  apply negb_true_iff in Htx. apply IH; [exact Hall|].
  now apply exec_context_absent.
Qed.

(** C10. Provided the hash is never the zero word: in a state reached from
    construction without any decryption request answered with identifier
    [r], the context under [r] reads as the zero value, and a callback
    with [r] reverts with [StateMismatch], whatever its payload and proof;
    storage is unchanged and no event is emitted. *)
Theorem callback_never_requested (deploy : Env) (txs : list Tx) e r ct pf :
  (forall cts, keccak256_encode cts address_this <> 0) ->
  forallb (fun tx => negb (requests_id r tx)) txs = true ->
  let s := run txs (constructor deploy) in
  let tx := {| tx_env := e; tx_call := CallMyCallback r ct pf |} in
  decryptionContexts_at s r = DecryptionContext_zero_value /\
  myCallback e r ct pf s = Revert StateMismatch /\
  exec tx s = s /\
  events_of tx s = [].
Proof.
  intros Hh Hall s tx.
  assert (Hnone : decryptionContexts s !! r = None).
  { apply run_context_absent; auto. }
  pose proof (myCallback_unknown e r ct pf s Hh Hnone) as Hr.
  repeat split.
  - unfold decryptionContexts_at. now rewrite Hnone.
  - exact Hr.
  - unfold exec, step, tx; cbn [tx_call tx_env]. now rewrite Hr.
  - unfold events_of, step, tx; cbn [tx_call tx_env]. now rewrite Hr.
Qed.

(** ** Life of a decryption context *)

Lemma myCallback_Ok_inv e r ct pf s s' evs :
  myCallback e r ct pf s = Ok (s', evs) ->
  processed (decryptionContexts_at s r) = false /\
  _hashCiphertexts
    [FHE_toBytes32
       (encryptedTotalConnections_at s (batchId (decryptionContexts_at s r)))]
    = stateHash (decryptionContexts_at s r) /\
  FHE_checkSignatures r ct pf = true /\
  exists total,
    abi_decode_uint32 ct = Ok total /\
    s' = set_decryptionContexts
           (<[r := {| batchId := batchId (decryptionContexts_at s r);
                      stateHash := stateHash (decryptionContexts_at s r);
                      processed := true |}]> (decryptionContexts s)) s /\
    evs = [Event.DecryptionCompleted r
             (batchId (decryptionContexts_at s r)) total].
Proof.
  unfold myCallback. unfold_guards.
  destruct (processed (decryptionContexts_at s r)); [discriminate|].
  destruct (_ =? _) eqn:Hh; cbn [negb]; [|discriminate].
  destruct (FHE_checkSignatures r ct pf); cbn [negb]; [|discriminate].
  destruct (abi_decode_uint32 ct) as [total|] eqn:Hd; [|discriminate].
  intros [= <- <-]. apply Z.eqb_eq in Hh.
  repeat split; auto. exists total. repeat split.
  unfold decryptionContexts_at at 1.
  cbn [decryptionContexts set_decryptionContexts].
  now rewrite lookup_insert_eq.
Qed.

(** One transaction, not a request answered with [r], on a stored
    context: a completing callback for [r] finds it unprocessed and marks
    it, anything else leaves it as it is. *)
Lemma exec_context_kept tx r c s :
  requests_id r tx = false ->
  decryptionContexts s !! r = Some c ->
  if calls_back r tx && succeeds tx s
  then processed c = false /\
       decryptionContexts (exec tx s) !! r
         = Some {| batchId := batchId c; stateHash := stateHash c;
                   processed := true |}
  else decryptionContexts (exec tx s) !! r = Some c.
Proof.
  intros Hreq Hsome. unfold calls_back, succeeds, exec, step, requests_id in *.
  destruct tx as [e k]; cbn [tx_call tx_env] in *.
  destruct k; cbn [andb];
    try (unfold_calls; unfold_guards; case_ifs; exact Hsome).
  - apply Z.eqb_neq in Hreq.
    unfold_calls; unfold_guards; case_ifs; try exact Hsome.
    cbn [decryptionContexts set_decryptionContexts]. now rewrite lookup_insert_ne.
  - destruct (myCallback e requestId cleartexts proof s) as [[s' evs]|err] eqn:Hcb.
    + apply myCallback_Ok_inv in Hcb
        as (Hp & _ & _ & total & _ & -> & _).
      destruct (requestId =? r) eqn:Hr; cbn [andb].
      * apply Z.eqb_eq in Hr; subst requestId.
        unfold decryptionContexts_at in *. rewrite Hsome in *.
        cbn [default] in *. split; [exact Hp|].
        cbn [decryptionContexts set_decryptionContexts].
        now rewrite lookup_insert_eq.
      * apply Z.eqb_neq in Hr.
        cbn [decryptionContexts set_decryptionContexts].
        now rewrite lookup_insert_ne.
    + rewrite andb_false_r. exact Hsome.
Qed.

Lemma run_context_kept txs r : forall c s,
  forallb (fun tx => negb (requests_id r tx)) txs = true ->
  decryptionContexts s !! r = Some c ->
  exists c',
    decryptionContexts (run txs s) !! r = Some c' /\
    batchId c' = batchId c /\
    stateHash c' = stateHash c /\
    processed c' = processed c || (0 <? completions r txs s)%nat /\
    ((if processed c then 1 else 0) + completions r txs s <= 1)%nat.
Proof.
  induction txs as [|tx txs IH]; intros c s Hall Hsome; cbn [run completions].
  - exists c. repeat split; auto.
    + now rewrite orb_false_r.
    + destruct (processed c); lia.
  - cbn [forallb] in Hall. apply andb_prop in Hall as [Htx Hall].
    apply negb_true_iff in Htx.
    pose proof (exec_context_kept tx r c s Htx Hsome) as Hstep.
    destruct (calls_back r tx && succeeds tx s).
    + destruct Hstep as [Hp Hnew].
      destruct (IH _ _ Hall Hnew) as (c' & Hc' & Hb & Hh & Hpr & Hcnt).
      cbn [batchId stateHash processed] in *.
      exists c'. repeat split; auto.
      * rewrite Hpr, Hp. cbn. reflexivity.
      * rewrite Hp. lia.
    + destruct (IH _ _ Hall Hstep) as (c' & Hc' & Hb & Hh & Hpr & Hcnt).
      exists c'. repeat split; auto.
Qed.

(** C7. For a stored context under identifier [r] and every
    execution in which the oracle answers no later request with [r]: the
    context is still stored, its [batchId] and [stateHash] are those it was
    created with, at most one callback for [r] completes (none when the
    context was already processed), and [processed] is true afterwards
    exactly when it was true before or a callback completed: it goes from
    false to true once and never back. *)
Theorem context_append_only (txs : list Tx) r c s :
  decryptionContexts s !! r = Some c ->
  forallb (fun tx => negb (requests_id r tx)) txs = true ->
  exists c',
    decryptionContexts (run txs s) !! r = Some c' /\
    batchId c' = batchId c /\
    stateHash c' = stateHash c /\
    processed c' = processed c || (0 <? completions r txs s)%nat /\
    ((if processed c then 1 else 0) + completions r txs s <= 1)%nat /\
    (processed c = true -> processed c' = true).
Proof.
  intros Hsome Hall.
  destruct (run_context_kept txs r c s Hall Hsome)
    as (c' & Hc' & Hb & Hh & Hpr & Hcnt).
  exists c'. repeat split; auto.
  intros Hp. now rewrite Hpr, Hp.
Qed.

(** ** Tamper detection *)

Lemma exec_currentBatchId_mono tx s :
  currentBatchId s <= currentBatchId (exec tx s).
Proof.
  unfold exec, step. destruct tx as [e c]; cbn [tx_call tx_env].
  destruct c; unfold_calls; unfold_guards; unfold abi_decode_uint32;
    case_ifs; cbn; lia.
Qed.

(** The aggregate of a batch that exists already changes only by an
    accepted submission into it, which adds an initialised handle. *)
Lemma exec_total tx B s :
  B <= currentBatchId s ->
  if submits_to B tx s
  then exists c,
      FHE_isInitialized c = true /\
      encryptedTotalConnections_at (exec tx s) B
        = FHE_add (encryptedTotalConnections_at s B) c
  else encryptedTotalConnections_at (exec tx s) B
         = encryptedTotalConnections_at s B.
Proof.
  intros HB. unfold submits_to, succeeds, exec, step.
  destruct tx as [e k]; cbn [tx_call tx_env].
  destruct k;
    try (unfold_calls; unfold_guards; unfold abi_decode_uint32;
         case_ifs; reflexivity).
  - (* openBatch *)
    unfold_calls; unfold_guards; case_ifs; try reflexivity.
    unfold encryptedTotalConnections_at.
    cbn [encryptedTotalConnections set_encryptedTotalConnections
           currentBatchId set_batchOpen set_currentBatchId].
    rewrite lookup_insert_ne by lia. reflexivity.
  - (* submitEncryptedConnections *)
    unfold_calls; unfold_guards.
    destruct (negb (isProvider_at s (msg_sender e))); [reflexivity|].
    destruct (paused s); [reflexivity|].
    destruct (_ <=? MAX_UINT256); [|reflexivity].
    destruct (block_timestamp e <? _); [reflexivity|].
    destruct (negb (batchOpen s)); [reflexivity|].
    destruct (FHE_isInitialized encryptedCount) eqn:Hinit; cbn [negb andb];
      [|reflexivity].
    unfold encryptedTotalConnections_at.
    cbn [encryptedTotalConnections set_encryptedTotalConnections
           currentBatchId set_encryptedUserConnections set_lastSubmissionTime].
    destruct (currentBatchId s =? B) eqn:HcB.
    + apply Z.eqb_eq in HcB. subst B. exists encryptedCount.
      split; [exact Hinit|]. now rewrite lookup_insert_eq.
    + apply Z.eqb_neq in HcB. now rewrite lookup_insert_ne.
Qed.

Lemma run_tampered mid rid B h0 a0 : forall (g : bool) s,
  decryptionContexts s !! rid
    = Some {| batchId := B; stateHash := h0; processed := false |} ->
  B <= currentBatchId s ->
  (if g then grows a0 (encryptedTotalConnections_at s B)
   else encryptedTotalConnections_at s B = a0) ->
  forallb (fun tx => negb (requests_id rid tx)) mid = true ->
  completions rid mid s = 0%nat ->
  decryptionContexts (run mid s) !! rid
    = Some {| batchId := B; stateHash := h0; processed := false |} /\
  (if g || (0 <? submissions_to B mid s)%nat
   then grows a0 (encryptedTotalConnections_at (run mid s) B)
   else encryptedTotalConnections_at (run mid s) B = a0).
Proof.
  induction mid as [|tx mid IH]; intros g s Hctx HB Hagg Hall Hdone;
    cbn [run submissions_to completions] in *.
  - rewrite orb_false_r. auto.
  - cbn [forallb] in Hall. apply andb_prop in Hall as [Htx Hall].
    apply negb_true_iff in Htx.
    pose proof (exec_context_kept tx rid _ s Htx Hctx) as Hkept.
    destruct (calls_back rid tx && succeeds tx s); [lia|].
    cbn [Nat.add] in Hdone.
    pose proof (exec_currentBatchId_mono tx s) as Hmono.
    pose proof (exec_total tx B s HB) as Htot.
    assert (Hagg' : if g || submits_to B tx s
                    then grows a0 (encryptedTotalConnections_at (exec tx s) B)
                    else encryptedTotalConnections_at (exec tx s) B = a0).
    { destruct (submits_to B tx s).
      - rewrite orb_true_r. destruct Htot as (c & Hc & ->).
        destruct g; [now apply grows_more|].
        rewrite Hagg. now apply grows_one.
      - rewrite orb_false_r, Htot. exact Hagg. }
    destruct (IH (g || submits_to B tx s) (exec tx s) Hkept ltac:(lia)
                Hagg' Hall Hdone) as [Hc' Ha'].
    split; [exact Hc'|].
    replace (g || (0 <? (if submits_to B tx s then 1 else 0)
                        + submissions_to B mid (exec tx s))%nat)
      with (g || submits_to B tx s
            || (0 <? submissions_to B mid (exec tx s))%nat); [exact Ha'|].
    destruct g, (submits_to B tx s); cbn; try reflexivity.
Qed.

Lemma requestTotalConnectionsDecryption_Ok_inv e rid B s s' evs :
  requestTotalConnectionsDecryption e rid B s = Ok (s', evs) ->
  B <= currentBatchId s /\
  currentBatchId s' = currentBatchId s /\
  batchOpen s' = batchOpen s /\
  encryptedTotalConnections s' = encryptedTotalConnections s /\
  decryptionContexts s' !! rid
    = Some {| batchId := B;
              stateHash := _hashCiphertexts
                             [FHE_toBytes32 (encryptedTotalConnections_at s B)];
              processed := false |}.
Proof.
  unfold_calls; unfold_guards.
  destruct (negb (isProvider_at s (msg_sender e))); [discriminate|].
  destruct (paused s); [discriminate|].
  destruct (_ <=? MAX_UINT256); [|discriminate].
  destruct (block_timestamp e <? _); [discriminate|].
  destruct ((B =? 0) || (B >? currentBatchId s)) eqn:Hrange; [discriminate|].
  destruct (negb (FHE_isInitialized _)); [discriminate|].
  intros [= <- <-]. apply orb_false_elim in Hrange as [_ Hgt].
  rewrite Z.gtb_ltb in Hgt. apply Z.ltb_ge in Hgt.
  cbn [currentBatchId batchOpen encryptedTotalConnections decryptionContexts
         set_decryptionContexts set_lastDecryptionRequestTime].
  rewrite lookup_insert_eq. repeat split; auto.
Qed.

(** C1. Provided a grown aggregate never hashes like the aggregate it grew
    from: take any state (reachable or not) in which a decryption request
    for batch [B] succeeds and is answered with identifier [rid], then any
    execution in which the oracle hands out [rid] to no other request, no
    callback for [rid] has completed, and at least one submission into
    [B] is accepted.  The callback for [rid] then reverts with
    [StateMismatch] for every payload and every proof, whether or not the
    proof verifies; storage is unchanged and no event is emitted. *)
Theorem tampered_callback_rejected
    e0 rid B s0 s1 evs0 (mid : list Tx) e ct pf :
  mutation_detectable ->
  requestTotalConnectionsDecryption e0 rid B s0 = Ok (s1, evs0) ->
  forallb (fun tx => negb (requests_id rid tx)) mid = true ->
  completions rid mid s1 = 0%nat ->
  (0 < submissions_to B mid s1)%nat ->
  let s := run mid s1 in
  let tx := {| tx_env := e; tx_call := CallMyCallback rid ct pf |} in
  myCallback e rid ct pf s = Revert StateMismatch /\
  exec tx s = s /\
  events_of tx s = [].
Proof.
  intros Hdet Hreq Hfresh Hpending Hsub s tx.
  apply requestTotalConnectionsDecryption_Ok_inv in Hreq
    as (HB & Hcb & _ & Htot & Hctx).
  set (a0 := encryptedTotalConnections_at s0 B) in *.
  assert (Ha0 : encryptedTotalConnections_at s1 B = a0)
    by (unfold a0, encryptedTotalConnections_at; now rewrite Htot).
  destruct (run_tampered mid rid B _ a0 false s1 Hctx ltac:(lia) Ha0
              Hfresh Hpending) as [Hctx' Hgrown].
  cbn [orb] in Hgrown.
  destruct (0 <? submissions_to B mid s1)%nat eqn:Hpos;
    [|apply Nat.ltb_ge in Hpos; lia].
  fold s in Hctx', Hgrown.
  assert (Hr : myCallback e rid ct pf s = Revert StateMismatch).
  { unfold myCallback, decryptionContexts_at. rewrite Hctx'.
    cbn [default batchId stateHash processed].
    unfold revert_if, bind.
    destruct (_ =? _) eqn:Heq; [|reflexivity].
    apply Z.eqb_eq in Heq. now apply Hdet in Hgrown. }
  repeat split; [exact Hr| |].
  - unfold exec, step, tx; cbn [tx_call tx_env]. now rewrite Hr.
  - unfold events_of, step, tx; cbn [tx_call tx_env]. now rewrite Hr.
Qed.

(** ** Accumulation *)

Lemma exec_contribution tx B s :
  B <= currentBatchId s ->
  match contribution_of B tx s with
  | Some (u, c) =>
      encryptedTotalConnections_at (exec tx s) B
        = FHE_add (encryptedTotalConnections_at s B) c /\
      (forall u', encryptedUserConnections_at (exec tx s) B u'
                  = if u =? u' then c
                    else encryptedUserConnections_at s B u')
  | None =>
      encryptedTotalConnections_at (exec tx s) B
        = encryptedTotalConnections_at s B /\
      (forall u', encryptedUserConnections_at (exec tx s) B u'
                  = encryptedUserConnections_at s B u')
  end.
Proof.
  intros HB. unfold contribution_of, succeeds, exec, step.
  destruct tx as [e k]; cbn [tx_call tx_env].
  destruct k;
    try (unfold_calls; unfold_guards; unfold abi_decode_uint32;
         case_ifs; split; reflexivity).
  - (* openBatch *)
    unfold_calls; unfold_guards; case_ifs; try (split; reflexivity).
    unfold encryptedTotalConnections_at, encryptedUserConnections_at.
    cbn [encryptedTotalConnections encryptedUserConnections
           set_encryptedTotalConnections currentBatchId set_batchOpen
           set_currentBatchId].
    rewrite lookup_insert_ne by lia. split; reflexivity.
  - (* submitEncryptedConnections *)
    unfold_calls; unfold_guards.
    destruct (negb (isProvider_at s (msg_sender e))); [split; reflexivity|].
    destruct (paused s); [split; reflexivity|].
    destruct (_ <=? MAX_UINT256); [|split; reflexivity].
    destruct (block_timestamp e <? _); [split; reflexivity|].
    destruct (negb (batchOpen s)); [split; reflexivity|].
    destruct (FHE_isInitialized encryptedCount); cbn [negb andb];
      [|split; reflexivity].
    unfold encryptedTotalConnections_at, encryptedUserConnections_at.
    cbn [encryptedTotalConnections encryptedUserConnections
           set_encryptedTotalConnections currentBatchId
           set_encryptedUserConnections set_lastSubmissionTime].
    destruct (currentBatchId s =? B) eqn:HcB.
    + apply Z.eqb_eq in HcB. subst B. rewrite lookup_insert_eq.
      split; [reflexivity|]. intros u'.
      destruct (user =? u') eqn:Hu.
      * apply Z.eqb_eq in Hu. subst u'. now rewrite lookup_insert_eq.
      * apply Z.eqb_neq in Hu. rewrite lookup_insert_ne by congruence.
        reflexivity.
    + apply Z.eqb_neq in HcB. rewrite lookup_insert_ne by congruence.
      split; [reflexivity|]. intros u'.
      rewrite lookup_insert_ne by congruence. reflexivity.
Qed.

Lemma run_currentBatchId_mono txs s :
  currentBatchId s <= currentBatchId (run txs s).
Proof.
  revert s. induction txs as [|tx txs IH]; intros s; cbn [run]; [lia|].
  pose proof (exec_currentBatchId_mono tx s). pose proof (IH (exec tx s)). lia.
Qed.

Lemma run_contributions txs B : forall s,
  B <= currentBatchId s ->
  encryptedTotalConnections_at (run txs s) B
    = fold_left FHE_add (map snd (accepted_into B txs s))
                (encryptedTotalConnections_at s B) /\
  (forall u, encryptedUserConnections_at (run txs s) B u
             = last_for u (accepted_into B txs s)
                        (encryptedUserConnections_at s B u)).
Proof.
  induction txs as [|tx txs IH]; intros s HB; cbn [run accepted_into].
  - split; reflexivity.
  - pose proof (exec_currentBatchId_mono tx s) as Hmono.
    pose proof (exec_contribution tx B s HB) as Hstep.
    destruct (IH (exec tx s) ltac:(lia)) as [IHt IHu].
    destruct (contribution_of B tx s) as [[u c]|].
    + destruct Hstep as [Ht Hu]. cbn [map snd fold_left]. split.
      * now rewrite IHt, Ht.
      * intros u'. rewrite IHu, Hu. unfold last_for. cbn [fold_left fst snd].
        reflexivity.
    + destruct Hstep as [Ht Hu]. split.
      * now rewrite IHt, Ht.
      * intros u'. now rewrite IHu, Hu.
Qed.

Lemma decrypt_fold (decrypt : euint32 -> Z) :
  (forall a b, decrypt (FHE_add a b) = (decrypt a + decrypt b) mod 2 ^ 32) ->
  forall cs z,
    decrypt z = decrypt z mod 2 ^ 32 ->
    decrypt (fold_left FHE_add cs z)
      = (decrypt z + sum_of (map decrypt cs)) mod 2 ^ 32.
Proof.
  intros Hadd cs. induction cs as [|c cs IH]; intros z Hz;
    cbn [fold_left map sum_of fold_right].
  - now rewrite Z.add_0_r.
  - rewrite IH.
    + rewrite Hadd. rewrite Zplus_mod_idemp_l. f_equal. unfold sum_of. lia.
    + rewrite Hadd. now rewrite Zmod_mod.
Qed.

Lemma openBatch_fresh_aggregate e s s' evs :
  openBatch e s = Ok (s', evs) ->
  encryptedTotalConnections_at s' (currentBatchId s') = FHE_asEuint32 0.
Proof.
  unfold_calls; unfold_guards. case_ifs; try discriminate.
  intros [= <- <-]. unfold encryptedTotalConnections_at.
  cbn [encryptedTotalConnections set_encryptedTotalConnections currentBatchId
         set_batchOpen set_currentBatchId].
  now rewrite lookup_insert_eq.
Qed.

(** C3. Let [decrypt] read the cleartext of a handle, with an encrypted
    zero reading 0 and homomorphic addition reading as addition in
    [uint32].  After a batch [B] is opened, and after any execution, the
    aggregate of [B] is the encrypted zero with the handles of all
    submissions accepted into [B] added in order, so it reads as the sum
    of their cleartexts modulo 2^32, each accepted submission counted, also when
    several are for one user; the stored contribution of a user in [B] is
    the handle of the last submission accepted for that user.  If a
    decryption of [B] is then requested and the oracle verifies for that
    request only the cleartext of the aggregate it was sent, a callback
    that completes emits [DecryptionCompleted] with batch [B] and that
    sum. *)
Theorem aggregate_is_sum_of_submissions
    (decrypt : euint32 -> Z) e0 s_pre s0 evs0 (txs : list Tx) :
  decrypt (FHE_asEuint32 0) = 0 ->
  (forall a b, decrypt (FHE_add a b) = (decrypt a + decrypt b) mod 2 ^ 32) ->
  openBatch e0 s_pre = Ok (s0, evs0) ->
  let B := currentBatchId s0 in
  let s1 := run txs s0 in
  let contributions := accepted_into B txs s0 in
  let total := sum_of (map decrypt (map snd contributions)) mod 2 ^ 32 in
  encryptedTotalConnections_at s1 B
    = fold_left FHE_add (map snd contributions) (FHE_asEuint32 0) /\
  decrypt (encryptedTotalConnections_at s1 B) = total /\
  (forall u, encryptedUserConnections_at s1 B u
             = last_for u contributions (encryptedUserConnections_at s0 B u)) /\
  (forall e2 rid s2 evs2 (mid : list Tx) e3 ct pf s3 evs3,
      requestTotalConnectionsDecryption e2 rid B s1 = Ok (s2, evs2) ->
      forallb (fun tx => negb (requests_id rid tx)) mid = true ->
      (forall ct' pf',
          FHE_checkSignatures rid ct' pf' = true ->
          abi_decode_uint32 ct'
            = Ok (decrypt (encryptedTotalConnections_at s1 B))) ->
      myCallback e3 rid ct pf (run mid s2) = Ok (s3, evs3) ->
      evs3 = [Event.DecryptionCompleted rid B total] /\
      processed (decryptionContexts_at s3 rid) = true).
Proof.
  intros Hzero Hadd Hopen B s1 contributions total.
  pose proof (openBatch_fresh_aggregate _ _ _ _ Hopen) as Hfresh.
  destruct (run_contributions txs B s0 ltac:(unfold B; lia)) as [Ht Hu].
  fold s1 contributions in Ht, Hu. fold B in Hfresh. rewrite Hfresh in Ht.
  assert (Hd : decrypt (encryptedTotalConnections_at s1 B) = total).
  { rewrite Ht, (decrypt_fold decrypt Hadd).
    - now rewrite Hzero.
    - now rewrite Hzero. }
  split; [exact Ht|]. split; [exact Hd|]. split; [exact Hu|].
  intros e2 rid s2 evs2 mid e3 ct pf s3 evs3 Hreq Hfreshid Hsound Hcb.
  apply requestTotalConnectionsDecryption_Ok_inv in Hreq
    as (_ & _ & _ & _ & Hctx).
  destruct (run_context_kept mid rid _ s2 Hfreshid Hctx)
    as (c' & Hc' & Hb & _ & _ & _).
  apply myCallback_Ok_inv in Hcb
    as (_ & _ & Hsig & v & Hdec & -> & ->).
  split.
  - unfold decryptionContexts_at. rewrite Hc'.
    change (default DecryptionContext_zero_value (Some c')) with c'.
    rewrite Hb. cbn [batchId]. apply Hsound in Hsig. rewrite Hsig in Hdec.
    injection Hdec as <-. now rewrite Hd.
  - unfold decryptionContexts_at.
    cbn [decryptionContexts set_decryptionContexts].
    now rewrite lookup_insert_eq.
Qed.

(** * Further properties of the contract *)

(** ** Roles *)

(** Every owner-only function reverts with [NotOwner] for any other caller,
    whatever its argument and whatever the state (the role check is the
    first thing each of them does). *)
Theorem non_owner_rejected e s :
  msg_sender e <> owner s ->
  (forall p, addProvider e p s = Revert NotOwner) /\
  (forall p, removeProvider e p s = Revert NotOwner) /\
  (forall n, setCooldownSeconds e n s = Revert NotOwner) /\
  pause e s = Revert NotOwner /\
  unpause e s = Revert NotOwner.
Proof.
  intros Hne. apply Z.eqb_neq in Hne.
  repeat split; intros; unfold_calls; unfold_guards; now rewrite Hne.
Qed.

(** Every provider-only function reverts with [NotProvider] for a caller
    that is not a provider, also while the contract is paused: the role
    check comes before the pause check. *)
Theorem non_provider_rejected e s :
  isProvider_at s (msg_sender e) = false ->
  openBatch e s = Revert NotProvider /\
  closeBatch e s = Revert NotProvider /\
  (forall u c, submitEncryptedConnections e u c s = Revert NotProvider) /\
  (forall r b, requestTotalConnectionsDecryption e r b s = Revert NotProvider).
Proof.
  intros Hnp.
  repeat split; intros; unfold_calls; unfold_guards; now rewrite Hnp.
Qed.

(** No transaction sent by anyone but the owner changes the owner, the
    provider set, the pause flag or the cooldown. *)
Theorem non_owner_cannot_administer tx s :
  msg_sender (tx_env tx) <> owner s ->
  owner (exec tx s) = owner s /\
  isProvider (exec tx s) = isProvider s /\
  paused (exec tx s) = paused s /\
  cooldownSeconds (exec tx s) = cooldownSeconds s.
Proof.
  destruct tx as [e c]; cbn [tx_env]. intros Hne. apply Z.eqb_neq in Hne.
  unfold exec, step; cbn [tx_call tx_env].
  destruct c; unfold_calls; unfold_guards; unfold abi_decode_uint32;
    rewrite ?Hne; cbn [negb]; case_ifs; repeat split;
    try reflexivity; cbn; congruence.
Qed.

(** [addProvider] by the owner with a non-null address succeeds, paused or
    not; afterwards that address is a provider and the status of every other
    address is as before.  Adding it once more succeeds and gives the same
    state again. *)
Theorem addProvider_effect e p s :
  msg_sender e = owner s ->
  p <> 0 ->
  exists s',
    addProvider e p s = Ok (s', [Event.ProviderAdded p]) /\
    isProvider_at s' p = true /\
    (forall q, q <> p -> isProvider_at s' q = isProvider_at s q) /\
    addProvider e p s' = Ok (s', [Event.ProviderAdded p]).
Proof.
  intros Hown Hp. apply Z.eqb_neq in Hp.
  exists (set_isProvider (<[p := true]> (isProvider s)) s).
  unfold_calls; unfold_guards. cbn [owner set_isProvider].
  rewrite Hown, Z.eqb_refl, Hp. cbn [negb].
  repeat split.
  - unfold isProvider_at; cbn [isProvider set_isProvider].
    now rewrite lookup_insert_eq.
  - intros q Hq. unfold isProvider_at; cbn [isProvider set_isProvider].
    now rewrite lookup_insert_ne.
  - unfold set_isProvider; cbn. now rewrite insert_insert_eq.
Qed.

(** [removeProvider] by the owner: an address that is not a provider is
    refused with [InvalidArgument]; a provider is removed, every other
    address keeps its status, and from then on the removed address is
    refused by [openBatch], [closeBatch], [submitEncryptedConnections] and
    [requestTotalConnectionsDecryption], and a second removal is refused. *)
Theorem removeProvider_effect e p s :
  msg_sender e = owner s ->
  (isProvider_at s p = false -> removeProvider e p s = Revert InvalidArgument) /\
  (isProvider_at s p = true ->
   exists s',
     removeProvider e p s = Ok (s', [Event.ProviderRemoved p]) /\
     isProvider_at s' p = false /\
     (forall q, q <> p -> isProvider_at s' q = isProvider_at s q) /\
     removeProvider e p s' = Revert InvalidArgument /\
     (forall e', msg_sender e' = p ->
        openBatch e' s' = Revert NotProvider /\
        closeBatch e' s' = Revert NotProvider /\
        (forall u c,
            submitEncryptedConnections e' u c s' = Revert NotProvider) /\
        (forall r b,
            requestTotalConnectionsDecryption e' r b s' = Revert NotProvider))).
Proof.
  intros Hown. split.
  - intros Hnp. unfold_calls; unfold_guards.
    now rewrite Hown, Z.eqb_refl, Hnp.
  - intros Hpr.
    exists (set_isProvider (delete p (isProvider s)) s).
    assert (Hgone : isProvider_at
                      (set_isProvider (delete p (isProvider s)) s) p = false).
    { unfold isProvider_at; cbn [isProvider set_isProvider].
      now rewrite lookup_delete_eq. }
    repeat split.
    + unfold_calls; unfold_guards. now rewrite Hown, Z.eqb_refl, Hpr.
    + exact Hgone.
    + intros q Hq. unfold isProvider_at; cbn [isProvider set_isProvider].
      now rewrite lookup_delete_ne.
    + unfold removeProvider, onlyOwner, revert_if, bind.
      cbn [owner set_isProvider]. now rewrite Hown, Z.eqb_refl, Hgone.
    + unfold_calls; unfold_guards.
      match goal with Hs : msg_sender _ = p |- _ => now rewrite Hs, Hgone end.
    + unfold_calls; unfold_guards.
      match goal with Hs : msg_sender _ = p |- _ => now rewrite Hs, Hgone end.
    + intros; unfold_calls; unfold_guards.
      match goal with Hs : msg_sender _ = p |- _ => now rewrite Hs, Hgone end.
    + intros; unfold_calls; unfold_guards.
      match goal with Hs : msg_sender _ = p |- _ => now rewrite Hs, Hgone end.
Qed.

(** Adding a new provider and removing it again, both by the owner, leaves
    every address with the provider status it had. *)
Theorem add_then_remove_provider e1 e2 p s :
  msg_sender e1 = owner s ->
  msg_sender e2 = owner s ->
  p <> 0 ->
  isProvider_at s p = false ->
  let add := {| tx_env := e1; tx_call := CallAddProvider p |} in
  let rm := {| tx_env := e2; tx_call := CallRemoveProvider p |} in
  succeeds add s = true /\
  succeeds rm (exec add s) = true /\
  forall q, isProvider_at (run [add; rm] s) q = isProvider_at s q.
Proof.
  intros H1 H2 Hp Hnp add rm. apply Z.eqb_neq in Hp.
  assert (Ha : step add s
               = Ok (set_isProvider (<[p := true]> (isProvider s)) s,
                     [Event.ProviderAdded p])).
  { unfold step, add; cbn [tx_call tx_env]. unfold_calls; unfold_guards.
    now rewrite H1, Z.eqb_refl, Hp. }
  assert (Hs1 : exec add s = set_isProvider (<[p := true]> (isProvider s)) s)
    by (unfold exec; now rewrite Ha).
  assert (Hr : step rm (exec add s)
               = Ok (set_isProvider (delete p (isProvider (exec add s)))
                       (exec add s),
                     [Event.ProviderRemoved p])).
  { rewrite Hs1. unfold step, rm; cbn [tx_call tx_env].
    unfold_calls; unfold_guards. unfold isProvider_at.
    cbn [owner isProvider set_isProvider].
    now rewrite H2, Z.eqb_refl, lookup_insert_eq. }
  repeat split.
  - unfold succeeds. now rewrite Ha.
  - unfold succeeds. now rewrite Hr.
  - intros q. cbn [run]. unfold exec at 1. rewrite Hr, Hs1.
    unfold isProvider_at in *; cbn [isProvider set_isProvider].
    destruct (decide (q = p)) as [->|Hq].
    + now rewrite lookup_delete_eq, Hnp.
    + now rewrite lookup_delete_ne, lookup_insert_ne.
Qed.

(** ** Invariants of reachable states *)

Lemma constructor_well_formed (deploy : Env) : well_formed (constructor deploy).
Proof.
  unfold well_formed, constructor;
    cbn [currentBatchId batchOpen encryptedTotalConnections
           encryptedUserConnections cooldownSeconds].
  split; [unfold MAX_UINT256; lia|].
  split; [discriminate|].
  split; [|split; [|discriminate]].
  - intros b. rewrite lookup_empty. split; [intros [x Hx]; discriminate|lia].
  - intros b u c. rewrite lookup_empty. discriminate.
Qed.

Lemma exec_well_formed tx s : well_formed s -> well_formed (exec tx s).
Proof.
  intros Hwf. unfold exec, step. destruct tx as [e c]; cbn [tx_call tx_env].
  destruct c.
  - unfold_calls; unfold_guards; case_ifs; exact Hwf.
  - unfold_calls; unfold_guards; case_ifs; exact Hwf.
  - (* setCooldownSeconds *)
    unfold_calls; unfold_guards.
    destruct (negb (msg_sender e =? owner s)); [exact Hwf|].
    destruct (newCooldown =? 0) eqn:Hz; [exact Hwf|].
    apply Z.eqb_neq in Hz. destruct Hwf as (Hcb & Hop & Htot & Husr & _).
    unfold well_formed.
    cbn [currentBatchId batchOpen encryptedTotalConnections
           encryptedUserConnections cooldownSeconds set_cooldownSeconds].
    split; [exact Hcb|]. split; [exact Hop|]. split; [exact Htot|].
    split; [exact Husr|exact Hz].
  - unfold_calls; unfold_guards; case_ifs; exact Hwf.
  - unfold_calls; unfold_guards; case_ifs; exact Hwf.
  - (* openBatch *)
    unfold_calls; unfold_guards.
    destruct (negb (isProvider_at s (msg_sender e))); [exact Hwf|].
    destruct (paused s); [exact Hwf|].
    destruct (batchOpen s) eqn:Hb; [exact Hwf|].
    destruct (currentBatchId s + 1 <=? MAX_UINT256) eqn:Hle; [|exact Hwf].
    apply Z.leb_le in Hle. destruct Hwf as (Hcb & Hop & Htot & Husr & Hcd).
    unfold well_formed.
    cbn [currentBatchId batchOpen encryptedTotalConnections
           encryptedUserConnections cooldownSeconds
           set_encryptedTotalConnections set_batchOpen set_currentBatchId].
    split; [lia|]. split; [lia|]. split; [|split; [|exact Hcd]].
    + intros b. destruct (decide (b = currentBatchId s + 1)) as [->|Hne].
      * rewrite lookup_insert_eq. split; [lia|eauto].
      * rewrite lookup_insert_ne by congruence. rewrite Htot. lia.
    + intros b u c Hc. destruct (Husr b u c Hc). split; [lia|assumption].
  - (* closeBatch *)
    unfold_calls; unfold_guards.
    destruct (negb (isProvider_at s (msg_sender e))); [exact Hwf|].
    destruct (paused s); [exact Hwf|].
    destruct (negb (batchOpen s)); [exact Hwf|].
    destruct Hwf as (Hcb & Hop & Htot & Husr & Hcd).
    unfold well_formed.
    cbn [currentBatchId batchOpen encryptedTotalConnections
           encryptedUserConnections cooldownSeconds set_batchOpen].
    split; [exact Hcb|]. split; [discriminate|]. split; [exact Htot|].
    split; [exact Husr|exact Hcd].
  - (* submitEncryptedConnections *)
    unfold_calls; unfold_guards.
    destruct (negb (isProvider_at s (msg_sender e))); [exact Hwf|].
    destruct (paused s); [exact Hwf|].
    destruct (_ <=? MAX_UINT256); [|exact Hwf].
    destruct (block_timestamp e <? _); [exact Hwf|].
    destruct (batchOpen s) eqn:Hb; cbn [negb]; [|exact Hwf].
    destruct (FHE_isInitialized encryptedCount) eqn:Hinit; cbn [negb];
      [|exact Hwf].
    destruct Hwf as (Hcb & Hop & Htot & Husr & Hcd).
    specialize (Hop Hb).
    unfold well_formed.
    cbn [currentBatchId batchOpen encryptedTotalConnections
           encryptedUserConnections cooldownSeconds
           set_encryptedTotalConnections set_encryptedUserConnections
           set_lastSubmissionTime].
    split; [lia|]. split; [lia|]. split; [|split; [|exact Hcd]].
    + intros b. destruct (decide (b = currentBatchId s)) as [->|Hne].
      * rewrite lookup_insert_eq. split; [lia|eauto].
      * rewrite lookup_insert_ne by congruence. apply Htot.
    + intros b u c.
      destruct (decide ((currentBatchId s, user) = (b, u))) as [Heq|Hne].
      * rewrite Heq, lookup_insert_eq. intros [= <-].
        injection Heq as <- _. split; [lia|exact Hinit].
      * rewrite lookup_insert_ne by exact Hne. apply Husr.
  - unfold_calls; unfold_guards; case_ifs; exact Hwf.
  - unfold_calls; unfold_guards; unfold abi_decode_uint32; case_ifs; exact Hwf.
Qed.

Lemma run_well_formed txs : forall s, well_formed s -> well_formed (run txs s).
Proof.
  induction txs as [|tx txs IH]; intros s Hwf; cbn [run]; [exact Hwf|].
  apply IH. now apply exec_well_formed.
Qed.

(** In every state reached from construction [currentBatchId] is a
    [uint256], an open batch has an identifier of at least 1, and an
    aggregate is stored exactly for the batches [1..currentBatchId]: every
    batch that was opened has one, batch 0 and the batches not yet opened
    have none. *)
Theorem batches_have_aggregates (deploy : Env) (txs : list Tx) :
  let s := run txs (constructor deploy) in
  0 <= currentBatchId s <= MAX_UINT256 /\
  (batchOpen s = true -> 1 <= currentBatchId s) /\
  (forall b, is_Some (encryptedTotalConnections s !! b)
             <-> 1 <= b <= currentBatchId s).
Proof.
  intros s.
  destruct (run_well_formed txs _ (constructor_well_formed deploy))
    as (Hcb & Hop & Htot & _ & _).
  auto.
Qed.

(** In every state reached from construction a stored per-user contribution
    belongs to a batch that was opened and is an initialised handle. *)
Theorem contributions_are_initialised (deploy : Env) (txs : list Tx) b u c :
  encryptedUserConnections (run txs (constructor deploy)) !! (b, u) = Some c ->
  1 <= b <= currentBatchId (run txs (constructor deploy)) /\
  FHE_isInitialized c = true.
Proof.
  destruct (run_well_formed txs _ (constructor_well_formed deploy))
    as (_ & _ & _ & Husr & _).
  apply Husr.
Qed.

(** The cooldown is 60 at construction and is never zero afterwards:
    [setCooldownSeconds(0)] by the owner reverts with [InvalidArgument] and
    keeps the value in place. *)
Theorem cooldown_never_zero (deploy : Env) (txs : list Tx) :
  cooldownSeconds (constructor deploy) = 60 /\
  cooldownSeconds (run txs (constructor deploy)) <> 0 /\
  (forall e s, msg_sender e = owner s ->
               setCooldownSeconds e 0 s = Revert InvalidArgument).
Proof.
  split; [reflexivity|]. split.
  - destruct (run_well_formed txs _ (constructor_well_formed deploy))
      as (_ & _ & _ & _ & Hcd).
    exact Hcd.
  - intros e s Hown. unfold_calls; unfold_guards.
    now rewrite Hown, Z.eqb_refl.
Qed.

(** ** Pause switch round trip *)

(** The owner pauses an unpaused contract and unpauses it again: both calls
    succeed and storage is exactly what it was.  [unpause] has no guard of
    its own: on a contract that is not paused it succeeds and changes
    nothing. *)
Theorem pause_then_unpause e1 e2 s :
  msg_sender e1 = owner s ->
  msg_sender e2 = owner s ->
  paused s = false ->
  pause e1 s = Ok (set_paused true s, [Event.Paused (msg_sender e1)]) /\
  unpause e2 (set_paused true s) = Ok (s, [Event.Unpaused (msg_sender e2)]) /\
  unpause e2 s = Ok (s, [Event.Unpaused (msg_sender e2)]).
Proof.
  intros H1 H2 Hp.
  assert (Hback : set_paused false (set_paused true s) = s)
    by (destruct s; cbn in *; now subst).
  assert (Hsame : set_paused false s = s)
    by (destruct s; cbn in *; now subst).
  repeat split; unfold_calls; unfold_guards; cbn [owner paused set_paused].
  - now rewrite H1, Z.eqb_refl, Hp.
  - now rewrite H2, Z.eqb_refl, Hback.
  - now rewrite H2, Z.eqb_refl, Hsame.
Qed.

(** ** Batch identifiers *)

Lemma exec_currentBatchId tx s :
  currentBatchId (exec tx s)
  = currentBatchId s
    + match tx_call tx with
      | CallOpenBatch => if succeeds tx s then 1 else 0
      | _ => 0
      end.
Proof.
  unfold succeeds, exec, step. destruct tx as [e c]; cbn [tx_call tx_env].
  destruct c; unfold_calls; unfold_guards; unfold abi_decode_uint32;
    case_ifs; cbn; lia.
Qed.

(** Batch identifiers are handed out one by one: after any execution
    [currentBatchId] has grown by the number of [openBatch] calls that
    succeeded, so from construction it is that number. *)
Theorem currentBatchId_counts_opened (txs : list Tx) s :
  currentBatchId (run txs s) = currentBatchId s + Z.of_nat (opened txs s).
Proof.
  unfold opened. revert s.
  induction txs as [|tx txs IH]; intros s; cbn [run lifecycle_trace].
  - cbn. lia.
  - rewrite IH, exec_currentBatchId.
    destruct (tx_call tx); destruct (succeeds tx s);
      rewrite ?filter_cons; try case_decide; try congruence;
      cbn [length]; lia.
Qed.

(** ** Closed batches *)

Lemma contribution_of_closed tx B s :
  B < currentBatchId s \/ batchOpen s = false ->
  contribution_of B tx s = None.
Proof.
  intros Hclosed. unfold contribution_of, succeeds, step.
  destruct tx as [e c]; cbn [tx_call tx_env].
  destruct c; try reflexivity.
  destruct (currentBatchId s =? B) eqn:HcB; [|now rewrite andb_false_r].
  apply Z.eqb_eq in HcB. destruct Hclosed as [Hlt|Hb]; [lia|].
  unfold_calls; unfold_guards. rewrite Hb. cbn [negb].
  destruct (negb (isProvider_at s (msg_sender e))); [reflexivity|].
  destruct (paused s); [reflexivity|].
  destruct (_ <=? MAX_UINT256); [|reflexivity].
  destruct (block_timestamp e <? _); reflexivity.
Qed.

Lemma exec_closed_kept tx B s :
  B <= currentBatchId s ->
  B < currentBatchId s \/ batchOpen s = false ->
  B < currentBatchId (exec tx s) \/ batchOpen (exec tx s) = false.
Proof.
  intros HB [Hlt|Hb].
  - left. pose proof (exec_currentBatchId_mono tx s). lia.
  - destruct (tx_call tx) eqn:Hc;
      try (right; rewrite exec_batchOpen_other by congruence; exact Hb).
    + (* openBatch *)
      pose proof (exec_currentBatchId tx s) as Hcb. rewrite Hc in Hcb.
      unfold succeeds, exec, step in *. rewrite Hc in *.
      destruct (openBatch (tx_env tx) s) as [[s' evs]|err]; [left; lia|].
      right; exact Hb.
    + (* closeBatch *)
      unfold exec, step. rewrite Hc.
      destruct (closeBatch (tx_env tx) s) as [[s' evs]|err] eqn:Hcl;
        [|right; exact Hb].
      apply closeBatch_Ok_inv in Hcl as [_ Hs']. right; exact Hs'.
Qed.

(** Once a batch is closed, or a later batch has been opened, nothing
    changes it any more: after any execution its aggregate and every
    per-user contribution in it are what they were. *)
Theorem closed_batch_frozen (txs : list Tx) B s :
  B <= currentBatchId s ->
  B < currentBatchId s \/ batchOpen s = false ->
  encryptedTotalConnections_at (run txs s) B
    = encryptedTotalConnections_at s B /\
  forall u, encryptedUserConnections_at (run txs s) B u
            = encryptedUserConnections_at s B u.
Proof.
  revert s. induction txs as [|tx txs IH]; intros s HB Hclosed; cbn [run].
  - split; reflexivity.
  - pose proof (exec_currentBatchId_mono tx s) as Hmono.
    pose proof (exec_contribution tx B s HB) as Hstep.
    rewrite (contribution_of_closed tx B s Hclosed) in Hstep.
    destruct Hstep as [Ht Hu].
    destruct (IH (exec tx s) ltac:(lia) (exec_closed_kept tx B s HB Hclosed))
      as [IHt IHu].
    split; [now rewrite IHt|]. intros u. now rewrite IHu.
Qed.

(** ** Cooldown clocks *)

(** The cooldown clocks are keyed by the caller: a transaction leaves both
    timestamps of every address other than its sender as they were, whatever
    the batch or the user it is about. *)
Theorem timers_keyed_by_caller tx s a :
  a <> msg_sender (tx_env tx) ->
  lastSubmissionTime_at (exec tx s) a = lastSubmissionTime_at s a /\
  lastDecryptionRequestTime_at (exec tx s) a
    = lastDecryptionRequestTime_at s a.
Proof.
  intros Hne. unfold exec, step. destruct tx as [e c]; cbn [tx_call tx_env] in *.
  unfold lastSubmissionTime_at, lastDecryptionRequestTime_at.
  destruct c; unfold_calls; unfold_guards; unfold abi_decode_uint32;
    case_ifs; split; try reflexivity;
    cbn [lastSubmissionTime lastDecryptionRequestTime set_lastSubmissionTime
           set_lastDecryptionRequestTime set_encryptedUserConnections
           set_encryptedTotalConnections set_decryptionContexts];
    now rewrite lookup_insert_ne by congruence.
Qed.

Lemma submitEncryptedConnections_Ok_inv e u c s s' evs :
  submitEncryptedConnections e u c s = Ok (s', evs) ->
  isProvider_at s (msg_sender e) = true /\
  paused s = false /\
  batchOpen s = true /\
  FHE_isInitialized c = true /\
  isProvider s' = isProvider s /\
  paused s' = paused s /\
  cooldownSeconds s' = cooldownSeconds s /\
  batchOpen s' = batchOpen s /\
  currentBatchId s' = currentBatchId s /\
  lastSubmissionTime_at s' (msg_sender e) = block_timestamp e.
Proof.
  unfold submitEncryptedConnections. unfold_guards.
  destruct (isProvider_at s (msg_sender e)) eqn:Hprov; cbn [negb];
    [|discriminate].
  destruct (paused s) eqn:Hp; [discriminate|].
  destruct (_ <=? MAX_UINT256); [|discriminate].
  destruct (block_timestamp e <? _); [discriminate|].
  destruct (batchOpen s) eqn:Hb; cbn [negb]; [|discriminate].
  destruct (FHE_isInitialized c) eqn:Hi; cbn [negb]; [|discriminate].
  intros [= <- _].
  unfold lastSubmissionTime_at.
  cbn [isProvider paused cooldownSeconds batchOpen currentBatchId
         lastSubmissionTime set_lastSubmissionTime
         set_encryptedUserConnections set_encryptedTotalConnections].
  rewrite lookup_insert_eq. repeat split; assumption.
Qed.

(** After an accepted submission, a further submission by the same caller
    reverts with [CooldownActive] until [cooldownSeconds] have passed, for
    any user and handle; from then on a submission of an initialised handle
    is accepted again. *)
Theorem second_submission_throttled e1 u1 c1 s s1 evs e2 u2 c2 :
  submitEncryptedConnections e1 u1 c1 s = Ok (s1, evs) ->
  msg_sender e2 = msg_sender e1 ->
  block_timestamp e1 + cooldownSeconds s <= MAX_UINT256 ->
  (block_timestamp e2 < block_timestamp e1 + cooldownSeconds s ->
   submitEncryptedConnections e2 u2 c2 s1 = Revert CooldownActive) /\
  (block_timestamp e1 + cooldownSeconds s <= block_timestamp e2 ->
   FHE_isInitialized c2 = true ->
   exists s2 evs2, submitEncryptedConnections e2 u2 c2 s1 = Ok (s2, evs2)).
Proof.
  intros Hfirst Hsame Hfit.
  apply submitEncryptedConnections_Ok_inv in Hfirst
    as (Hprov & Hp & Hb & _ & Hprov' & Hp' & Hcd' & Hb' & _ & Hlast).
  assert (Hprov1 : isProvider_at s1 (msg_sender e2) = true)
    by (unfold isProvider_at in *; now rewrite Hprov', Hsame).
  rewrite Hp in Hp'. rewrite Hb in Hb'. apply Z.leb_le in Hfit.
  split.
  - intros Hlt. apply Z.ltb_lt in Hlt.
    unfold submitEncryptedConnections. unfold_guards.
    now rewrite Hprov1, Hp', Hsame, Hlast, Hcd', Hfit, Hlt.
  - intros Hge Hinit. apply Z.ltb_ge in Hge.
    unfold submitEncryptedConnections. unfold_guards.
    rewrite Hprov1, Hp', Hsame, Hlast, Hcd', Hfit, Hge, Hb', Hinit.
    cbn [negb]. eauto.
Qed.

(** ** Payload decoding *)

Lemma be_value_from_nonneg (bs : list byte) : forall acc,
  0 <= acc ->
  0 <= fold_left (fun acc b => acc * 256 + Z.of_N (Byte.to_N b)) bs acc.
Proof.
  induction bs as [|b bs IH]; intros acc Hacc; cbn [fold_left]; [exact Hacc|].
  apply IH. lia.
Qed.

Lemma abi_decode_uint32_range data v :
  abi_decode_uint32 data = Ok v -> 0 <= v < 2 ^ 32.
Proof.
  unfold abi_decode_uint32.
  destruct (length data <? 32)%nat; [discriminate|].
  destruct (2 ^ 32 <=? be_value (take 32 data)) eqn:Hle; [discriminate|].
  intros [= <-]. apply Z.leb_gt in Hle. split; [|exact Hle].
  unfold be_value. now apply be_value_from_nonneg.
Qed.

(** [abi.decode(data, (uint32))] reverts on data shorter than one 32-byte
    word, reads the first word only (what follows it is ignored), and a
    value it returns is a [uint32]. *)
Theorem abi_decode_uint32_first_word :
  (forall data, (length data < 32)%nat ->
                abi_decode_uint32 data = Revert AbiDecodeFailure) /\
  (forall w extra, length w = 32%nat ->
                   abi_decode_uint32 (w ++ extra) = abi_decode_uint32 w) /\
  (forall data v, abi_decode_uint32 data = Ok v -> 0 <= v < 2 ^ 32).
Proof.
  split; [|split].
  - intros data Hlen. unfold abi_decode_uint32.
    apply Nat.ltb_lt in Hlen. now rewrite Hlen.
  - intros w extra Hlen. unfold abi_decode_uint32.
    assert (Hl : (length (w ++ extra) <? 32)%nat = false)
      by (apply Nat.ltb_ge; rewrite length_app; lia).
    assert (Hr : (length w <? 32)%nat = false) by (apply Nat.ltb_ge; lia).
    rewrite Hl, Hr.
    assert (Ht : take 32 (w ++ extra) = w)
      by (rewrite <- Hlen; apply take_app_length).
    assert (Hw : take 32 w = w) by (rewrite <- Hlen; apply firstn_all).
    now rewrite Ht, Hw.
  - apply abi_decode_uint32_range.
Qed.

(** ** Completion of a callback *)

(** A callback completes only for a context that is not yet processed,
    whose snapshot hash equals the hash of the aggregate as it is now, with
    a proof the library verifies and a payload that decodes.  It then emits
    one [DecryptionCompleted] carrying the batch of the context and the
    decoded total, which is a [uint32], marks that context processed, and
    leaves every other context and every other state variable as it was. *)
Theorem callback_completion e r ct pf s s' evs :
  myCallback e r ct pf s = Ok (s', evs) ->
  processed (decryptionContexts_at s r) = false /\
  _hashCiphertexts
    [FHE_toBytes32
       (encryptedTotalConnections_at s (batchId (decryptionContexts_at s r)))]
    = stateHash (decryptionContexts_at s r) /\
  FHE_checkSignatures r ct pf = true /\
  exists total,
    abi_decode_uint32 ct = Ok total /\
    0 <= total < 2 ^ 32 /\
    evs = [Event.DecryptionCompleted r
             (batchId (decryptionContexts_at s r)) total] /\
    decryptionContexts s' !! r
      = Some {| batchId := batchId (decryptionContexts_at s r);
                stateHash := stateHash (decryptionContexts_at s r);
                processed := true |} /\
    (forall r', r' <> r ->
                decryptionContexts s' !! r' = decryptionContexts s !! r') /\
    set_decryptionContexts (decryptionContexts s) s' = s.
Proof.
  intros Hcb.
  apply myCallback_Ok_inv in Hcb as (Hp & Hh & Hsig & total & Hd & -> & ->).
  repeat split; auto. exists total.
  split; [exact Hd|]. split; [now apply abi_decode_uint32_range in Hd|].
  split; [reflexivity|].
  cbn [decryptionContexts set_decryptionContexts].
  split; [now rewrite lookup_insert_eq|].
  split; [intros r' Hne; now rewrite lookup_insert_ne|].
  now destruct s.
Qed.

(** A request that nothing has touched: whatever else has run since the
    request, if no submission into its batch was accepted, no callback for
    it has completed and the oracle gave its identifier to no other request,
    then the callback reverts with [InvalidProof] when the proof does not
    verify, reverts when the payload does not decode, and otherwise
    completes, emitting the batch and the decoded total and marking the
    context processed. *)
Theorem untampered_callback e0 rid B s0 s1 evs0 (mid : list Tx) e ct pf :
  requestTotalConnectionsDecryption e0 rid B s0 = Ok (s1, evs0) ->
  forallb (fun tx => negb (requests_id rid tx)) mid = true ->
  completions rid mid s1 = 0%nat ->
  submissions_to B mid s1 = 0%nat ->
  myCallback e rid ct pf (run mid s1)
  = if FHE_checkSignatures rid ct pf
    then match abi_decode_uint32 ct with
         | Ok total =>
             Ok (set_decryptionContexts
                   (<[rid := {| batchId := B;
                                stateHash :=
                                  _hashCiphertexts
                                    [FHE_toBytes32
                                       (encryptedTotalConnections_at s0 B)];
                                processed := true |}]>
                      (decryptionContexts (run mid s1)))
                   (run mid s1),
                 [Event.DecryptionCompleted rid B total])
         | Revert err => Revert err
         end
    else Revert InvalidProof.
Proof.
  intros Hreq Hfresh Hpending Hnone.
  apply requestTotalConnectionsDecryption_Ok_inv in Hreq
    as (HB & Hcb & _ & Htot & Hctx).
  set (a0 := encryptedTotalConnections_at s0 B) in *.
  assert (Ha0 : encryptedTotalConnections_at s1 B = a0)
    by (unfold a0, encryptedTotalConnections_at; now rewrite Htot).
  destruct (run_tampered mid rid B _ a0 false s1 Hctx ltac:(lia) Ha0
              Hfresh Hpending) as [Hctx' Hsame].
  rewrite Hnone in Hsame. cbn in Hsame.
  unfold myCallback, decryptionContexts_at. rewrite Hctx'.
  cbn [from_option id batchId stateHash processed]. rewrite Hsame.
  unfold revert_if, bind, _hashCiphertexts. rewrite Z.eqb_refl. cbn [negb].
  destruct (FHE_checkSignatures rid ct pf); cbn [negb]; [|reflexivity].
  destruct (abi_decode_uint32 ct) as [total|err]; [|reflexivity].
  cbn [decryptionContexts set_decryptionContexts].
  now rewrite lookup_insert_eq.
Qed.

(** ** Submission outcome *)

(** For a provider, not paused and past the submission cooldown,
    [submitEncryptedConnections] reverts with [BatchClosed] when no batch is
    open, then with [NotInitialized] when the handle is not initialised, and
    otherwise succeeds and emits [ConnectionSubmitted] with the exported
    handle: afterwards the caller's submission time reads as the block
    time, the contribution of the user in the current batch reads as the
    handle, the aggregate of the current batch reads as the old aggregate
    with the handle added, and every other contribution, aggregate,
    timestamp and state variable reads as before. *)
Theorem submit_outcome e u c s :
  isProvider_at s (msg_sender e) = true ->
  paused s = false ->
  lastSubmissionTime_at s (msg_sender e) + cooldownSeconds s
    <= block_timestamp e ->
  block_timestamp e <= MAX_UINT256 ->
  (batchOpen s = false ->
   submitEncryptedConnections e u c s = Revert BatchClosed) /\
  (batchOpen s = true -> FHE_isInitialized c = false ->
   submitEncryptedConnections e u c s = Revert NotInitialized) /\
  (batchOpen s = true -> FHE_isInitialized c = true ->
   exists s',
     submitEncryptedConnections e u c s
       = Ok (s', [Event.ConnectionSubmitted u (currentBatchId s)
                    (FHE_toBytes32 c)]) /\
     lastSubmissionTime_at s' (msg_sender e) = block_timestamp e /\
     (forall a, a <> msg_sender e ->
                lastSubmissionTime s' !! a = lastSubmissionTime s !! a) /\
     encryptedUserConnections_at s' (currentBatchId s) u = c /\
     (forall k, k <> (currentBatchId s, u) ->
                encryptedUserConnections s' !! k
                = encryptedUserConnections s !! k) /\
     encryptedTotalConnections_at s' (currentBatchId s)
       = FHE_add (encryptedTotalConnections_at s (currentBatchId s)) c /\
     (forall b, b <> currentBatchId s ->
                encryptedTotalConnections s' !! b
                = encryptedTotalConnections s !! b) /\
     lastDecryptionRequestTime s' = lastDecryptionRequestTime s /\
     currentBatchId s' = currentBatchId s /\
     batchOpen s' = batchOpen s /\
     decryptionContexts s' = decryptionContexts s /\
     owner s' = owner s /\
     isProvider s' = isProvider s /\
     paused s' = paused s /\
     cooldownSeconds s' = cooldownSeconds s).
Proof.
  intros Hprov Hp Hcd Hnow.
  assert (Hgate : submitEncryptedConnections e u c s
    = if negb (batchOpen s) then Revert BatchClosed
      else if negb (FHE_isInitialized c) then Revert NotInitialized
      else Ok (set_encryptedTotalConnections
                 (<[currentBatchId s :=
                      FHE_add (encryptedTotalConnections_at s (currentBatchId s))
                              c]>
                    (encryptedTotalConnections s))
                 (set_encryptedUserConnections
                    (<[(currentBatchId s, u) := c]>
                       (encryptedUserConnections s))
                    (set_lastSubmissionTime
                       (<[msg_sender e := block_timestamp e]>
                          (lastSubmissionTime s)) s)),
               [Event.ConnectionSubmitted u (currentBatchId s)
                  (FHE_toBytes32 c)])).
  { unfold_calls; unfold_guards. rewrite Hprov, Hp. cbn [negb].
    destruct (_ + _ <=? MAX_UINT256) eqn:Hle; [|apply Z.leb_gt in Hle; lia].
    destruct (block_timestamp e <? _) eqn:Hlt; [apply Z.ltb_lt in Hlt; lia|].
    destruct (negb (batchOpen s)); [reflexivity|].
    destruct (negb (FHE_isInitialized c)); reflexivity. }
  split; [|split].
  - intros Hb. now rewrite Hgate, Hb.
  - intros Hb Hinit. now rewrite Hgate, Hb, Hinit.
  - intros Hb Hinit. rewrite Hgate, Hb, Hinit. cbn [negb].
    eexists. split; [reflexivity|].
    unfold lastSubmissionTime_at, encryptedUserConnections_at,
      encryptedTotalConnections_at.
    cbn [decryptionContexts lastDecryptionRequestTime lastSubmissionTime
           currentBatchId batchOpen encryptedTotalConnections
           encryptedUserConnections owner isProvider paused cooldownSeconds
           set_encryptedTotalConnections set_encryptedUserConnections
           set_lastSubmissionTime].
    rewrite !lookup_insert_eq.
    split; [reflexivity|].
    split; [intros a Hne; now rewrite lookup_insert_ne|].
    split; [reflexivity|].
    split; [intros k Hne; now rewrite lookup_insert_ne|].
    split; [reflexivity|].
    split; [intros b Hne; now rewrite lookup_insert_ne|].
    repeat split; assumption.
Qed.

(** ** Requests on opened batches *)

Lemma exec_aggregates_initialised tx s :
  FHE_isInitialized (FHE_asEuint32 0) = true ->
  (forall a c, FHE_isInitialized c = true ->
               FHE_isInitialized (FHE_add a c) = true) ->
  (forall b x, encryptedTotalConnections s !! b = Some x ->
               FHE_isInitialized x = true) ->
  forall b x, encryptedTotalConnections (exec tx s) !! b = Some x ->
              FHE_isInitialized x = true.
Proof.
  intros Hzero Hadd Hinv. unfold exec, step.
  destruct tx as [e c]; cbn [tx_call tx_env].
  destruct c;
    try (unfold_calls; unfold_guards; unfold abi_decode_uint32;
         case_ifs; exact Hinv).
  - (* openBatch *)
    unfold_calls; unfold_guards; case_ifs; try exact Hinv.
    cbn [encryptedTotalConnections set_encryptedTotalConnections
           currentBatchId set_batchOpen set_currentBatchId].
    intros b x. destruct (decide (b = currentBatchId s + 1)) as [->|Hne].
    + rewrite lookup_insert_eq. now intros [= <-].
    + rewrite lookup_insert_ne by congruence. apply Hinv.
  - (* submitEncryptedConnections *)
    unfold_calls; unfold_guards.
    destruct (negb (isProvider_at s (msg_sender e))); [exact Hinv|].
    destruct (paused s); [exact Hinv|].
    destruct (_ <=? MAX_UINT256); [|exact Hinv].
    destruct (block_timestamp e <? _); [exact Hinv|].
    destruct (negb (batchOpen s)); [exact Hinv|].
    destruct (FHE_isInitialized encryptedCount) eqn:Hi; cbn [negb];
      [|exact Hinv].
    cbn [encryptedTotalConnections set_encryptedTotalConnections
           currentBatchId set_encryptedUserConnections set_lastSubmissionTime].
    intros b x. destruct (decide (b = currentBatchId s)) as [->|Hne].
    + rewrite lookup_insert_eq. intros [= <-]. now apply Hadd.
    + rewrite lookup_insert_ne by congruence. apply Hinv.
Qed.

Lemma run_aggregates_initialised txs :
  FHE_isInitialized (FHE_asEuint32 0) = true ->
  (forall a c, FHE_isInitialized c = true ->
               FHE_isInitialized (FHE_add a c) = true) ->
  forall s,
    (forall b x, encryptedTotalConnections s !! b = Some x ->
                 FHE_isInitialized x = true) ->
    forall b x, encryptedTotalConnections (run txs s) !! b = Some x ->
                FHE_isInitialized x = true.
Proof.
  intros Hzero Hadd. induction txs as [|tx txs IH]; intros s Hinv; cbn [run];
    [exact Hinv|].
  apply IH. now apply exec_aggregates_initialised.
Qed.

(** When the library returns initialised handles (an encrypted zero is
    one, and so is a sum with an initialised summand), the [NotInitialized]
    branch of a decryption request is never taken from construction on: a
    request by a provider, not paused and past the cooldown, for any batch
    [1..currentBatchId] succeeds, batch open or closed. *)
Theorem request_succeeds_on_opened_batch
    (deploy : Env) (txs : list Tx) e rid b :
  FHE_isInitialized (FHE_asEuint32 0) = true ->
  (forall a c, FHE_isInitialized c = true ->
               FHE_isInitialized (FHE_add a c) = true) ->
  let s := run txs (constructor deploy) in
  isProvider_at s (msg_sender e) = true ->
  paused s = false ->
  lastDecryptionRequestTime_at s (msg_sender e) + cooldownSeconds s
    <= block_timestamp e ->
  block_timestamp e <= MAX_UINT256 ->
  1 <= b <= currentBatchId s ->
  exists s' evs,
    requestTotalConnectionsDecryption e rid b s = Ok (s', evs).
Proof.
  intros Hzero Hadd s Hprov Hp Hcd Hnow Hb.
  destruct (run_well_formed txs _ (constructor_well_formed deploy))
    as (_ & _ & Htot & _ & _).
  fold s in Htot. destruct (proj2 (Htot b) Hb) as [x Hx].
  assert (Hix : FHE_isInitialized x = true).
  { apply (run_aggregates_initialised txs Hzero Hadd (constructor deploy))
      with (b := b); [|exact Hx].
    intros b' x'. unfold constructor; cbn [encryptedTotalConnections].
    rewrite lookup_empty. discriminate. }
  unfold_calls; unfold_guards. rewrite Hprov, Hp. cbn [negb].
  destruct (_ + _ <=? MAX_UINT256) eqn:Hle; [|apply Z.leb_gt in Hle; lia].
  destruct (block_timestamp e <? _) eqn:Hlt; [apply Z.ltb_lt in Hlt; lia|].
  replace (b =? 0) with false by (symmetry; apply Z.eqb_neq; lia).
  replace (b >? currentBatchId s) with false
    by (symmetry; rewrite Z.gtb_ltb; apply Z.ltb_ge; lia).
  cbn [orb]. unfold encryptedTotalConnections_at. rewrite Hx.
  cbn [from_option id]. rewrite Hix. cbn [negb]. eauto.
Qed.

(** ** Stored contexts *)

Lemma exec_contexts_of_requests tx s :
  (forall cts, keccak256_encode cts address_this <> 0) ->
  (forall r c, decryptionContexts s !! r = Some c ->
               batchId c <> 0 /\ batchId c <= currentBatchId s /\
               stateHash c <> 0) ->
  forall r c, decryptionContexts (exec tx s) !! r = Some c ->
              batchId c <> 0 /\ batchId c <= currentBatchId (exec tx s) /\
              stateHash c <> 0.
Proof.
  intros Hh Hinv r c Hc.
  pose proof (exec_currentBatchId_mono tx s) as Hmono.
  assert (Hold : forall c0, decryptionContexts s !! r = Some c0 ->
                            batchId c0 <> 0 /\
                            batchId c0 <= currentBatchId (exec tx s) /\
                            stateHash c0 <> 0).
  { intros c0 Hc0. destruct (Hinv r c0 Hc0) as (? & ? & ?).
    repeat split; auto; lia. }
  revert Hc Hmono Hold. unfold exec, step.
  destruct tx as [e k]; cbn [tx_call tx_env].
  destruct k;
    try (unfold_calls; unfold_guards; case_ifs; intros Hc _ Hold;
         exact (Hold c Hc)).
  - (* a request *)
    unfold_calls; unfold_guards.
    destruct (negb (isProvider_at s (msg_sender e)));
      [intros Hc _ Hold; exact (Hold c Hc)|].
    destruct (paused s); [intros Hc _ Hold; exact (Hold c Hc)|].
    destruct (_ <=? MAX_UINT256); [|intros Hc _ Hold; exact (Hold c Hc)].
    destruct (block_timestamp e <? _); [intros Hc _ Hold; exact (Hold c Hc)|].
    destruct ((batchId_ =? 0) || (batchId_ >? currentBatchId s)) eqn:Hrange;
      [intros Hc _ Hold; exact (Hold c Hc)|].
    destruct (negb (FHE_isInitialized _));
      [intros Hc _ Hold; exact (Hold c Hc)|].
    cbn [decryptionContexts currentBatchId set_decryptionContexts
           set_lastDecryptionRequestTime].
    intros Hc _ Hold.
    destruct (decide (oracleRequestId = r)) as [->|Hne].
    + rewrite lookup_insert_eq in Hc. injection Hc as <-.
      cbn [batchId stateHash].
      apply orb_false_elim in Hrange as [H0 Hgt].
      apply Z.eqb_neq in H0. rewrite Z.gtb_ltb in Hgt. apply Z.ltb_ge in Hgt.
      repeat split; auto. apply Hh.
    + rewrite lookup_insert_ne in Hc by congruence. exact (Hold c Hc).
  - (* a callback *)
    destruct (myCallback e requestId cleartexts proof s)
      as [[s' evs]|err] eqn:Hcb; [|intros Hc _ Hold; exact (Hold c Hc)].
    destruct (decryptionContexts s !! requestId) as [c0|] eqn:Hc0.
    + apply myCallback_Ok_inv in Hcb as (_ & _ & _ & total & _ & -> & _).
      cbn [decryptionContexts currentBatchId set_decryptionContexts].
      intros Hc Hmono Hold.
      destruct (decide (requestId = r)) as [->|Hne].
      * rewrite lookup_insert_eq in Hc. injection Hc as <-.
        unfold decryptionContexts_at. rewrite Hc0.
        cbn [from_option id batchId stateHash]. exact (Hold c0 Hc0).
      * rewrite lookup_insert_ne in Hc by congruence. exact (Hold c Hc).
    + rewrite (myCallback_unknown e requestId cleartexts proof s Hh Hc0) in Hcb.
      discriminate.
Qed.

(** Provided the hash is never the zero word: in every state reached from
    construction each stored context was written by a request, so its batch
    identifier is not 0 and not above [currentBatchId], and its snapshot
    hash is not zero. *)
Theorem contexts_come_from_requests (deploy : Env) (txs : list Tx) r c :
  (forall cts, keccak256_encode cts address_this <> 0) ->
  decryptionContexts (run txs (constructor deploy)) !! r = Some c ->
  batchId c <> 0 /\
  batchId c <= currentBatchId (run txs (constructor deploy)) /\
  stateHash c <> 0.
Proof.
  intros Hh.
  assert (Hgen : forall s,
             (forall r c, decryptionContexts s !! r = Some c ->
                          batchId c <> 0 /\ batchId c <= currentBatchId s /\
                          stateHash c <> 0) ->
             forall r c, decryptionContexts (run txs s) !! r = Some c ->
                         batchId c <> 0 /\
                         batchId c <= currentBatchId (run txs s) /\
                         stateHash c <> 0).
  { induction txs as [|tx txs IH]; intros s Hinv; cbn [run]; [exact Hinv|].
    apply IH. now apply exec_contexts_of_requests. }
  apply Hgen. intros r' c'. unfold constructor; cbn [decryptionContexts].
  rewrite lookup_empty. discriminate.
Qed.

(** ** The null address *)

Lemma exec_null_not_provider tx s :
  isProvider_at s 0 = false -> isProvider_at (exec tx s) 0 = false.
Proof.
  intros Hnull. unfold exec, step. destruct tx as [e c]; cbn [tx_call tx_env].
  destruct c;
    try (unfold_calls; unfold_guards; unfold abi_decode_uint32;
         case_ifs; exact Hnull).
  - (* addProvider *)
    unfold_calls; unfold_guards.
    destruct (negb (msg_sender e =? owner s)); [exact Hnull|].
    destruct (provider =? 0) eqn:Hz; [exact Hnull|].
    apply Z.eqb_neq in Hz. unfold isProvider_at in *.
    cbn [isProvider set_isProvider]. now rewrite lookup_insert_ne.
  - (* removeProvider *)
    unfold_calls; unfold_guards.
    destruct (negb (msg_sender e =? owner s)); [exact Hnull|].
    destruct (negb (isProvider_at s provider)); [exact Hnull|].
    unfold isProvider_at in *. cbn [isProvider set_isProvider].
    destruct (decide (provider = 0)) as [->|Hne].
    + now rewrite lookup_delete_eq.
    + now rewrite lookup_delete_ne.
Qed.

(** When the deployer is not the null address, the null address is never a
    provider: [addProvider] refuses it and nothing else adds providers. *)
Theorem null_address_never_provider (deploy : Env) (txs : list Tx) :
  msg_sender deploy <> 0 ->
  isProvider_at (run txs (constructor deploy)) 0 = false.
Proof.
  intros Hd.
  assert (Hgen : forall s, isProvider_at s 0 = false ->
                           isProvider_at (run txs s) 0 = false).
  { induction txs as [|tx txs IH]; intros s Hs; cbn [run]; [exact Hs|].
    apply IH. now apply exec_null_not_provider. }
  apply Hgen. unfold isProvider_at, constructor; cbn [isProvider].
  now rewrite lookup_insert_ne.
Qed.

End Properties.

(** * The instance [ListFHE] meets the assumptions made above *)

Lemma list_grows_length (answers : Z -> option Z) (a b : list Z) :
  @grows (ListFHE answers) a b -> (length a < length b)%nat.
Proof.
  induction 1 as [a c Hc|a b c _ IH Hc]; cbn in *;
    rewrite length_app; destruct c; cbn in *; try discriminate; lia.
Qed.

Lemma list_mutation_detectable (answers : Z -> option Z) :
  @mutation_detectable (ListFHE answers).
Proof.
  intros a b Hg. apply list_grows_length in Hg.
  unfold _hashCiphertexts; cbn. unfold list_keccak; cbn. lia.
Qed.

Lemma list_keccak_nonzero (cts : list Z) (a : Z) : list_keccak cts a <> 0.
Proof.
  unfold list_keccak.
  assert (0 <= fold_right (fun c acc => Z.abs c + acc) 0 cts).
  { induction cts as [|c cts IH]; cbn; lia. }
  lia.
Qed.

Lemma list_decrypt_range (a : list Z) : 0 <= list_decrypt a < 2 ^ 32.
Proof.
  destruct a as [|v a]; cbn [list_decrypt fold_right]; [lia|].
  apply Z.mod_pos_bound. lia.
Qed.

Lemma list_decrypt_add (a b : list Z) :
  list_decrypt (a ++ b) = (list_decrypt a + list_decrypt b) mod 2 ^ 32.
Proof.
  induction a as [|v a IH].
  - cbn [app]. change (list_decrypt []) with 0. rewrite Z.add_0_l.
    symmetry. apply Z.mod_small. apply list_decrypt_range.
  - change (list_decrypt ((v :: a) ++ b))
      with ((v + list_decrypt (a ++ b)) mod 2 ^ 32).
    change (list_decrypt (v :: a)) with ((v + list_decrypt a) mod 2 ^ 32).
    rewrite IH, Zplus_mod_idemp_r, Zplus_mod_idemp_l. f_equal. lia.
Qed.

(** The oracle of the worked execution verifies for request 7 only payloads
    that decode to 8. *)
Lemma oracle_answers_sound (ct pf : list byte) :
  list_checkSignatures oracle_answers 7 ct pf = true ->
  abi_decode_uint32 ct = Ok 8.
Proof.
  unfold list_checkSignatures. change (oracle_answers 7) with (Some 8).
  destruct (abi_decode_uint32 ct) as [w|]; [|discriminate].
  intros Hc. apply andb_prop in Hc as [Hv _]. apply Z.eqb_eq in Hv. now subst.
Qed.

(** * The worked execution *)

(** Tamper detection at work: 5 is submitted, decryption is requested, 1 is
    submitted, and the callback is refused. *)
Lemma tampered_callback_rejected_witness :
  @myCallback Engine (at_time 99 360) 7 (word_of_byte x08) [x01]
     (@run Engine [tx_submit_late] st_requested_open)
  = Revert StateMismatch.
Proof.
  refine (proj1 (@tampered_callback_rejected Engine
                   (at_time 1 300) 7 1 st_submitted_5 st_requested_open
                   [Event.DecryptionRequested 7 1] [tx_submit_late]
                   (at_time 99 360) (word_of_byte x08) [x01]
                   (list_mutation_detectable oracle_answers) _ _ _ _)).
  - reflexivity.
  - reflexivity.
  - reflexivity.
  - vm_compute; lia.
Defined.

(** The completed request cannot be completed again. *)
Lemma replay_rejected_first_witness :
  @myCallback Engine (at_time 99 500) 7 (word_of_byte x08) [x01] st_completed
  = Revert ReplayAttempt.
Proof.
  refine (proj1 (@replay_rejected_first Engine (at_time 99 500) 7
                   (word_of_byte x08) [x01] st_completed _)).
  reflexivity.
Defined.

(** Batch 1 holds 0 + 5 + 3, user 10 holds the 5, and the completion event
    carries 8. *)
Lemma aggregate_is_sum_of_submissions_witness :
  @encryptedTotalConnections_at Engine
     (@run Engine [tx_submit_5; tx_submit_3; tx_close]
        (@exec Engine tx_open deployed)) 1 = [0; 5; 3] /\
  @encryptedUserConnections_at Engine
     (@run Engine [tx_submit_5; tx_submit_3; tx_close]
        (@exec Engine tx_open deployed)) 1 10 = [5] /\
  @events_of Engine tx_callback st_requested
    = [Event.DecryptionCompleted 7 1 8].
Proof.
  pose proof (@aggregate_is_sum_of_submissions Engine list_decrypt
                (at_time 1 10) deployed (@exec Engine tx_open deployed)
                (@events_of Engine tx_open deployed)
                [tx_submit_5; tx_submit_3; tx_close]
                eq_refl list_decrypt_add
                ltac:(vm_compute; reflexivity)) as W.
  cbv zeta in W. destruct W as (Wt & _ & Wu & Wcb).
  split; [|split].
  - vm_compute in Wt |- *. exact Wt.
  - pose proof (Wu 10) as Wu10. vm_compute in Wu10 |- *. exact Wu10.
  - pose proof (Wcb (at_time 1 300) 7 st_requested
                    [Event.DecryptionRequested 7 1] []
                    (at_time 99 310) (word_of_byte x08) [x01]
                    st_completed (@events_of Engine tx_callback st_requested))
      as Wev.
    assert (Hreq :
      @requestTotalConnectionsDecryption Engine (at_time 1 300) 7
        (@currentBatchId Engine (@exec Engine tx_open deployed))
        (@run Engine [tx_submit_5; tx_submit_3; tx_close]
           (@exec Engine tx_open deployed))
      = Ok (st_requested, [Event.DecryptionRequested 7 1]))
      by (vm_compute; reflexivity).
    assert (Hsound :
      forall ct' pf' : list byte,
        @FHE_checkSignatures Engine 7 ct' pf' = true ->
        abi_decode_uint32 ct'
        = Ok (list_decrypt
                (@encryptedTotalConnections_at Engine
                   (@run Engine [tx_submit_5; tx_submit_3; tx_close]
                      (@exec Engine tx_open deployed))
                   (@currentBatchId Engine (@exec Engine tx_open deployed))))).
    { intros ct' pf' Hc. rewrite (oracle_answers_sound ct' pf' Hc).
      vm_compute; reflexivity. }
    assert (Hcb :
      @myCallback Engine (at_time 99 310) 7 (word_of_byte x08) [x01]
        (@run Engine [] st_requested)
      = Ok (st_completed, @events_of Engine tx_callback st_requested))
      by (vm_compute; reflexivity).
    destruct (Wev Hreq eq_refl Hsound Hcb) as [Wtotal _].
    rewrite Wtotal. vm_compute; reflexivity.
Defined.

(** Two accepted submissions of 2^31: their sum is 2^32, the aggregate
    reads as 0, and the callback completes with total 0. *)
Lemma sum_wraps_at_uint32 :
  map snd (@accepted_into WrapEngine 1 wrap_txs
             (@constructor WrapEngine (at_time 1 0)))
    = [[2147483648]; [2147483648]] /\
  sum_of (map list_decrypt [[2147483648]; [2147483648]]) = 4294967296 /\
  list_decrypt (@encryptedTotalConnections_at WrapEngine st_wrapped 1) = 0 /\
  @succeeds WrapEngine wrap_callback st_wrapped = true /\
  @events_of WrapEngine wrap_callback st_wrapped
    = [Event.DecryptionCompleted 7 1 0].
Proof. repeat split; vm_compute; reflexivity. Qed.

(** While paused, the owner can neither open a batch nor pause again. *)
Lemma paused_gates_provider_calls_witness :
  @openBatch Engine (at_time 1 500) st_paused = Revert Paused /\
  @pause Engine (at_time 1 500) st_paused = Revert Paused.
Proof.
  pose proof (@paused_gates_provider_calls Engine (at_time 1 500) st_paused
                ltac:(vm_compute; reflexivity)) as (Hprov & Hown & _).
  split.
  - exact (proj1 (Hprov ltac:(vm_compute; reflexivity))).
  - exact (proj1 (Hown ltac:(vm_compute; reflexivity))).
Defined.

(** While paused, [addProvider] still succeeds and changes the provider
    set, and the pending callback still completes and marks its context. *)
Lemma paused_admin_and_callback_still_run :
  @paused Engine st_paused = true /\
  @succeeds Engine tx_add_2 st_paused = true /\
  @isProvider_at Engine st_paused 2 = false /\
  @isProvider_at Engine (@exec Engine tx_add_2 st_paused) 2 = true /\
  @succeeds Engine tx_callback st_paused = true /\
  @events_of Engine tx_callback st_paused = [Event.DecryptionCompleted 7 1 8] /\
  processed (@decryptionContexts_at Engine st_paused 7) = false /\
  processed (@decryptionContexts_at Engine (@exec Engine tx_callback st_paused) 7)
    = true.
Proof. repeat split; reflexivity. Qed.

(** The owner stays a provider while batches are opened and providers
    added. *)
Lemma owner_fixed_provider_unless_self_removed_witness :
  @isProvider_at Engine (@run Engine [tx_open; tx_add_2] deployed) 1 = true.
Proof.
  refine (proj2 (@owner_fixed_provider_unless_self_removed Engine
                   (at_time 1 0) [tx_open; tx_add_2]) _).
  reflexivity.
Defined.

(** The owner removes itself: the state is reachable, the owner is still
    the deployer and is no longer a provider. *)
Lemma owner_removes_itself :
  @reachable Engine (@run Engine [tx_remove_owner] deployed) /\
  @succeeds Engine tx_remove_owner deployed = true /\
  @owner Engine (@run Engine [tx_remove_owner] deployed) = 1 /\
  @isProvider_at Engine (@run Engine [tx_remove_owner] deployed)
     (@owner Engine (@run Engine [tx_remove_owner] deployed)) = false.
Proof.
  split.
  - exists (at_time 1 0), [tx_remove_owner]. reflexivity.
  - repeat split; reflexivity.
Qed.

(** The first [openBatch] after deployment: batch 1, aggregate an encrypted
    zero. *)
Lemma batch_lifecycle_witness :
  exists s',
    @openBatch Engine (at_time 1 10) deployed = Ok (s', [Event.BatchOpened 1]) /\
    @currentBatchId Engine s' = 1 /\
    @encryptedTotalConnections_at Engine s' 1 = [0].
Proof.
  destruct (proj2 (proj2 (@batch_lifecycle Engine) (at_time 1 10) deployed
                     ltac:(vm_compute; reflexivity)
                     ltac:(vm_compute; reflexivity)
                     ltac:(vm_compute; reflexivity))
              ltac:(vm_compute; reflexivity))
    as (_ & _ & s' & Ho & Hcb & _ & Ht & _).
  exists s'. split; [exact Ho|]. split; [exact Hcb|exact Ht].
Defined.

(** A context survives callbacks, completing once. *)
Lemma context_append_only_witness :
  exists c',
    @decryptionContexts Engine
       (@run Engine [tx_callback; tx_callback] st_requested) !! 7 = Some c' /\
    batchId c' = 1 /\ stateHash c' = 4100 /\ processed c' = true.
Proof.
  destruct (@context_append_only Engine [tx_callback; tx_callback] 7
              {| batchId := 1; stateHash := 4100; processed := false |}
              st_requested
              ltac:(vm_compute; reflexivity) ltac:(vm_compute; reflexivity))
    as (c' & Hc' & Hb & Hh & Hp & _).
  exists c'. repeat split; auto.
Defined.


(** A second submission 20 seconds after the first. *)
Lemma cooldown_throttle_witness :
  @submitEncryptedConnections Engine (at_time 1 120) 11 [3] st_submitted_5
  = Revert CooldownActive.
Proof.
  pose proof (@cooldown_throttle Engine (at_time 1 120) st_submitted_5
                ltac:(vm_compute; reflexivity) ltac:(vm_compute; reflexivity))
    as [Hsub _].
  exact (proj1 (proj1 (Hsub ltac:(vm_compute; discriminate) 11 [3])
                  ltac:(vm_compute; reflexivity))).
Defined.

(** With the cooldown at 2^256-1 and a last submission at time 100, a
    submission at time 200 is within the cooldown and reverts with the
    arithmetic panic. *)
Lemma cooldown_sum_overflows :
  @isProvider_at Engine st_huge_cooldown 1 = true /\
  @paused Engine st_huge_cooldown = false /\
  block_timestamp (at_time 1 200)
    < @lastSubmissionTime_at Engine st_huge_cooldown 1
      + @cooldownSeconds Engine st_huge_cooldown /\
  @submitEncryptedConnections Engine (at_time 1 200) 11 [3] st_huge_cooldown
    = Revert PanicOverflow.
Proof. repeat split; vm_compute; reflexivity. Qed.

(** A callback for 7 before any request was made. *)
Lemma callback_never_requested_witness :
  @myCallback Engine (at_time 99 310) 7 (word_of_byte x08) [x01] st_submitted_5
  = Revert StateMismatch.
Proof.
  refine (proj1 (proj2 (@callback_never_requested Engine (at_time 1 0)
                          [tx_open; tx_submit_5] (at_time 99 310) 7
                          (word_of_byte x08) [x01]
                          (fun cts => list_keccak_nonzero cts 4096) _))).
  reflexivity.
Defined.

(** * The further properties on the worked execution *)

Lemma list_add_initialised (answers : Z -> option Z) (a c : list Z) :
  @FHE_isInitialized (ListFHE answers) c = true ->
  @FHE_isInitialized (ListFHE answers) (@FHE_add (ListFHE answers) a c) = true.
Proof.
  intros Hc. destruct c as [|x c]; [discriminate|].
  change (negb (length (a ++ x :: c) =? 0)%nat = true).
  rewrite length_app. cbn [length].
  destruct (Nat.eqb_spec (length a + S (length c)) 0); [lia|reflexivity].
Qed.

Lemma non_owner_rejected_witness :
  @pause Engine (at_time 2 50) deployed = Revert NotOwner.
Proof.
  pose proof (@non_owner_rejected Engine (at_time 2 50) deployed
                ltac:(vm_compute; discriminate)) as (_ & _ & _ & W & _).
  exact W.
Defined.

Lemma non_provider_rejected_witness :
  @openBatch Engine (at_time 2 50) st_paused = Revert NotProvider.
Proof.
  exact (proj1 (@non_provider_rejected Engine (at_time 2 50) st_paused
                  ltac:(vm_compute; reflexivity))).
Defined.

Lemma non_owner_cannot_administer_witness :
  @paused Engine (@exec Engine tx_pause_by_2 deployed) = @paused Engine deployed.
Proof.
  pose proof (@non_owner_cannot_administer Engine tx_pause_by_2 deployed
                ltac:(vm_compute; discriminate)) as (_ & _ & W & _).
  exact W.
Defined.

Lemma addProvider_effect_witness :
  exists s', @addProvider Engine (at_time 1 306) 2 st_paused
             = Ok (s', [Event.ProviderAdded 2]) /\
             @isProvider_at Engine s' 2 = true.
Proof.
  destruct (@addProvider_effect Engine (at_time 1 306) 2 st_paused
              ltac:(vm_compute; reflexivity) ltac:(discriminate))
    as (s' & W1 & W2 & _).
  exists s'. split; assumption.
Defined.

Lemma removeProvider_effect_witness :
  exists s', @removeProvider Engine (at_time 1 20) 1 deployed
             = Ok (s', [Event.ProviderRemoved 1]) /\
             @openBatch Engine (at_time 1 30) s' = Revert NotProvider.
Proof.
  destruct (proj2 (@removeProvider_effect Engine (at_time 1 20) 1 deployed
                     ltac:(vm_compute; reflexivity))
              ltac:(vm_compute; reflexivity))
    as (s' & W1 & _ & _ & _ & W2).
  exists s'. split; [exact W1|].
  exact (proj1 (W2 (at_time 1 30) eq_refl)).
Defined.

Lemma add_then_remove_provider_witness :
  @isProvider_at Engine
     (@run Engine [ {| tx_env := at_time 1 306; tx_call := CallAddProvider 2 |};
                    {| tx_env := at_time 1 307; tx_call := CallRemoveProvider 2 |} ]
        deployed) 2
  = @isProvider_at Engine deployed 2.
Proof.
  pose proof (@add_then_remove_provider Engine (at_time 1 306) (at_time 1 307)
                2 deployed ltac:(vm_compute; reflexivity)
                ltac:(vm_compute; reflexivity) ltac:(discriminate)
                ltac:(vm_compute; reflexivity)) as W.
  cbv zeta in W. destruct W as (_ & _ & W). exact (W 2).
Defined.

Lemma batches_have_aggregates_witness :
  1 <= @currentBatchId Engine (@run Engine [tx_open] (@constructor Engine (at_time 1 0))).
Proof.
  pose proof (@batches_have_aggregates Engine (at_time 1 0) [tx_open]) as W.
  cbv zeta in W. destruct W as (_ & W & _).
  exact (W ltac:(vm_compute; reflexivity)).
Defined.

Lemma contributions_are_initialised_witness :
  @FHE_isInitialized Engine [5] = true.
Proof.
  exact (proj2 (@contributions_are_initialised Engine (at_time 1 0)
                  [tx_open; tx_submit_5] 1 10 [5]
                  ltac:(vm_compute; reflexivity))).
Defined.

Lemma cooldown_never_zero_witness :
  @setCooldownSeconds Engine (at_time 1 5) 0 deployed = Revert InvalidArgument.
Proof.
  pose proof (@cooldown_never_zero Engine (at_time 1 0) []) as (_ & _ & W).
  exact (W (at_time 1 5) deployed ltac:(vm_compute; reflexivity)).
Defined.

Lemma pause_then_unpause_witness :
  @unpause Engine (at_time 1 320) (@set_paused Engine true st_requested)
  = Ok (st_requested, [Event.Unpaused 1]).
Proof.
  pose proof (@pause_then_unpause Engine (at_time 1 305) (at_time 1 320)
                st_requested ltac:(vm_compute; reflexivity)
                ltac:(vm_compute; reflexivity)
                ltac:(vm_compute; reflexivity)) as (_ & W & _).
  exact W.
Defined.

Lemma closed_batch_frozen_witness :
  @encryptedTotalConnections_at Engine
     (@run Engine [tx_submit_late] st_requested) 1
  = @encryptedTotalConnections_at Engine st_requested 1.
Proof.
  refine (proj1 (@closed_batch_frozen Engine [tx_submit_late] 1 st_requested
                   _ (or_intror _))).
  - vm_compute; discriminate.
  - vm_compute; reflexivity.
Defined.

Lemma timers_keyed_by_caller_witness :
  @lastSubmissionTime_at Engine (@exec Engine tx_submit_5 st_opened) 2
  = @lastSubmissionTime_at Engine st_opened 2.
Proof.
  exact (proj1 (@timers_keyed_by_caller Engine tx_submit_5 st_opened 2
                  ltac:(vm_compute; discriminate))).
Defined.

Lemma second_submission_throttled_witness :
  @submitEncryptedConnections Engine (at_time 1 120) 11 [3] st_submitted_5
  = Revert CooldownActive.
Proof.
  pose proof (@second_submission_throttled Engine (at_time 1 100) 10 [5]
                st_opened st_submitted_5
                [Event.ConnectionSubmitted 10 1 1]
                (at_time 1 120) 11 [3]
                ltac:(vm_compute; reflexivity) eq_refl
                ltac:(vm_compute; discriminate)) as [W _].
  exact (W ltac:(vm_compute; reflexivity)).
Defined.

Lemma abi_decode_uint32_first_word_witness :
  abi_decode_uint32 (word_of_byte x08 ++ [x01; x02])
  = abi_decode_uint32 (word_of_byte x08).
Proof.
  pose proof abi_decode_uint32_first_word as (_ & W & _).
  exact (W (word_of_byte x08) [x01; x02] eq_refl).
Defined.

Lemma callback_completion_witness :
  @FHE_checkSignatures Engine 7 (word_of_byte x08) [x01] = true.
Proof.
  pose proof (@callback_completion Engine (at_time 99 310) 7
                (word_of_byte x08) [x01] st_requested st_completed
                [Event.DecryptionCompleted 7 1 8]
                ltac:(vm_compute; reflexivity)) as (_ & _ & W & _).
  exact W.
Defined.

Lemma untampered_callback_witness :
  @myCallback Engine (at_time 99 360) 7 (word_of_byte x08) []
     (@run Engine [tx_close] st_requested_open)
  = Revert InvalidProof.
Proof.
  rewrite (@untampered_callback Engine (at_time 1 300) 7 1 st_submitted_5
             st_requested_open [Event.DecryptionRequested 7 1] [tx_close]
             (at_time 99 360) (word_of_byte x08) []
             ltac:(vm_compute; reflexivity) ltac:(vm_compute; reflexivity)
             ltac:(vm_compute; reflexivity) ltac:(vm_compute; reflexivity)).
  vm_compute; reflexivity.
Defined.

Lemma submit_outcome_witness :
  @submitEncryptedConnections Engine (at_time 1 200) 11 [] st_submitted_5
  = Revert NotInitialized.
Proof.
  pose proof (@submit_outcome Engine (at_time 1 200) 11 [] st_submitted_5
                ltac:(vm_compute; reflexivity) ltac:(vm_compute; reflexivity)
                ltac:(vm_compute; discriminate)
                ltac:(vm_compute; discriminate)) as (_ & W & _).
  exact (W ltac:(vm_compute; reflexivity) ltac:(vm_compute; reflexivity)).
Defined.

Lemma request_succeeds_on_opened_batch_witness :
  exists s' evs,
    @requestTotalConnectionsDecryption Engine (at_time 1 300) 7 1
       (@run Engine [tx_open; tx_submit_5] (@constructor Engine (at_time 1 0)))
    = Ok (s', evs).
Proof.
  exact (@request_succeeds_on_opened_batch Engine (at_time 1 0)
           [tx_open; tx_submit_5] (at_time 1 300) 7 1
           eq_refl (list_add_initialised oracle_answers)
           ltac:(vm_compute; reflexivity) ltac:(vm_compute; reflexivity)
           ltac:(vm_compute; discriminate) ltac:(vm_compute; discriminate)
           ltac:(vm_compute; split; discriminate)).
Defined.

Lemma contexts_come_from_requests_witness :
  batchId {| batchId := 1; stateHash := 4100; processed := false |} <> 0.
Proof.
  exact (proj1 (@contexts_come_from_requests Engine (at_time 1 0)
                  [tx_open; tx_submit_5; tx_submit_3; tx_close; tx_request]
                  7 {| batchId := 1; stateHash := 4100; processed := false |}
                  (fun cts => list_keccak_nonzero cts 4096)
                  ltac:(vm_compute; reflexivity))).
Defined.

Lemma null_address_never_provider_witness :
  @isProvider_at Engine (@run Engine [tx_open; tx_add_2] deployed) 0 = false.
Proof.
  exact (@null_address_never_provider Engine (at_time 1 0) [tx_open; tx_add_2]
           ltac:(vm_compute; discriminate)).
Defined.
